(** * pylgbst peripherals: wire encoding and subscriber fan-out

    A shallow embedding of [pylgbst/peripherals.py]: the command packets
    written to the Move Hub, the speed and duration encodings of
    [EncodedMotor], and the mode / subscriber state of [TiltSensor].

    Conventions of the embedding.
    - A Python byte string is a [list Z] whose elements are byte values;
      [int2byte] is the only way the code turns an integer into a byte and
      it raises outside [0, 255].
    - The numeric arguments [relative] and [seconds] are Python floats:
      IEEE-754 doubles, the [spec_float] of the standard library at
      precision 53. A product such as [relative * 100] is the rounded
      product of two doubles, comparisons with an integer are exact, a NaN
      compares false with everything, and [int] and [round] raise on a NaN
      and on an infinity. An integer argument, such as the default
      [speed_primary = 1], is read as the double of the same value.
    - A method of a peripheral is a function of the monad [M]: it takes the
      state of the object and of its environment (the connection of the
      parent hub, the clock, the logger, the subscribers' invocations) and
      returns either a value or the exception raised, with the state
      reached at that point.
    - A subscriber is a function of the same monad: it may raise, and it
      may act on the peripheral that calls it, subscribing or
      unsubscribing while a notification is being delivered.
    - The module [pylgbst.constants] is not part of the sources: its names
      are the fields of the record [constants]. *)

From Stdlib Require Import ZArith QArith Lia SpecFloat.
From stdpp Require Import base option list gmap.

Local Open Scope Z_scope.

(** ** Exceptions, results and the state monad *)

Inductive exn : Set :=
  | ValueError
  | KeyError
  | IndexError
  | StructError
  | IOError
  | OverflowError
  | RuntimeError.

Inductive result (A : Type) : Type :=
  | Ok (a : A)
  | Raise (e : exn).
Arguments Ok {A} a.
Arguments Raise {A} e.

Definition bytes := list Z.

Definition is_byte (v : Z) : Prop := 0 <= v < 256.

(** Identity of a subscriber callback. *)
Definition callback := positive.

(** A Python float. *)
Definition float := spec_float.

(** The names imported from [pylgbst.constants]. *)
Record constants : Set := {
  PACKET_VER : Z;
  MSG_SET_PORT_VAL : Z;
  MSG_SENSOR_SUBSCRIBE : Z;
  MOVE_HUB_HARDWARE_HANDLE : Z;
  PORT_A : Z;
  PORT_B : Z;
  PORT_AB : Z;
  PORT_C : Z;
  PORT_D : Z;
  TILT_SENSOR_MODE_OFF : Z;
  TILT_SENSOR_MODE_BASIC : Z;
  TILT_SENSOR_MODE_2AXIS : Z;
  TILT_SENSOR_MODE_FULL : Z
}.

(** The attributes of a peripheral ([port], [working], [_subscribers], and
    [mode] for a tilt sensor) together with what its methods do to the
    outside: [wire] lists the calls of [parent.connection.write] (handle
    and bytes, oldest first), [slept] the calls of [time.sleep], [calls]
    the subscriber invocations with their arguments, [debug] the modes
    reported through [log.debug]. *)
Record state : Type := {
  port : Z;
  working : bool;
  _subscribers : gset callback;
  mode : Z;
  wire : list (Z * bytes);
  slept : list float;
  calls : list (callback * list Z);
  debug : list Z
}.

Definition M (A : Type) : Type := state -> result A * state.

#[export] Instance M_ret : MRet M := fun A (a : A) st => (Ok a, st).

#[export] Instance M_bind : MBind M := fun A B (f : A -> M B) (m : M A) st =>
  match m st with
  | (Ok a, st') => f a st'
  | (Raise e, st') => (Raise e, st')
  end.

Definition raise {A : Type} (e : exn) : M A := fun st => (Raise e, st).

Definition lift {A : Type} (r : result A) : M A := fun st => (r, st).

Definition gets {A : Type} (f : state -> A) : M A := fun st => (Ok (f st), st).

Definition modify (f : state -> state) : M unit := fun st => (Ok tt, f st).

Definition set_working (b : bool) (st : state) : state :=
  {| port := port st; working := b; _subscribers := _subscribers st;
     mode := mode st; wire := wire st; slept := slept st;
     calls := calls st; debug := debug st |}.

Definition set_subscribers (s : gset callback) (st : state) : state :=
  {| port := port st; working := working st; _subscribers := s;
     mode := mode st; wire := wire st; slept := slept st;
     calls := calls st; debug := debug st |}.

Definition set_mode (m : Z) (st : state) : state :=
  {| port := port st; working := working st; _subscribers := _subscribers st;
     mode := m; wire := wire st; slept := slept st;
     calls := calls st; debug := debug st |}.

Definition set_wire (w : list (Z * bytes)) (st : state) : state :=
  {| port := port st; working := working st; _subscribers := _subscribers st;
     mode := mode st; wire := w; slept := slept st;
     calls := calls st; debug := debug st |}.

Definition set_slept (s : list float) (st : state) : state :=
  {| port := port st; working := working st; _subscribers := _subscribers st;
     mode := mode st; wire := wire st; slept := s;
     calls := calls st; debug := debug st |}.

Definition set_calls (c : list (callback * list Z)) (st : state) : state :=
  {| port := port st; working := working st; _subscribers := _subscribers st;
     mode := mode st; wire := wire st; slept := slept st;
     calls := c; debug := debug st |}.

Definition set_debug (d : list Z) (st : state) : state :=
  {| port := port st; working := working st; _subscribers := _subscribers st;
     mode := mode st; wire := wire st; slept := slept st;
     calls := calls st; debug := d |}.

(** ** Python floats *)

(** The double of an integer, as in [relative * 100], where the [100] is
    converted before the product is taken. *)
Definition of_int (n : Z) : float := binary_normalize 53 1024 n 0 false.

(** [x * y] on floats: the product, rounded to the nearest double. *)
Definition fmul (x y : float) : float := SFmul 53 1024 x y.

(** The double a decimal literal denotes: [decimal 5 10] is [0.5] and
    [decimal 65535 1000] is [65.535], the double nearest to the quotient
    of two integers below [2 ^ 53]. *)
Definition decimal (n d : Z) : float := SFdiv 53 1024 (of_int n) (of_int d).

(** A finite double [(s, m, e)] is the number
    [numerator s m e / denominator e]. *)
Definition numerator (s : bool) (m : positive) (e : Z) : Z :=
  cond_Zopp s (Zpos m * 2 ^ Z.max e 0).

Definition denominator (e : Z) : Z := 2 ^ Z.max (- e) 0.

(** The order between a float and the fraction [n / d] (with [0 < d]),
    computed exactly as Python compares a float with an integer; there is
    none for a NaN. *)
Definition compare_frac (x : float) (n d : Z) : option comparison :=
  match x with
  | S754_nan => None
  | S754_infinity s => Some (if s then Lt else Gt)
  | S754_zero _ => Some (0 ?= n)
  | S754_finite s m e => Some (numerator s m e * d ?= n * denominator e)
  end.

Definition le_frac (x : float) (n d : Z) : bool :=
  match compare_frac x n d with
  | Some Lt | Some Eq => true
  | _ => false
  end.

Definition ge_frac (x : float) (n d : Z) : bool :=
  match compare_frac x n d with
  | Some Gt | Some Eq => true
  | _ => false
  end.

(** [x < n] and [x > n] for a float and an integer. *)
Definition lt_int (x : float) (n : Z) : bool :=
  match compare_frac x n 1 with
  | Some Lt => true
  | _ => false
  end.

Definition gt_int (x : float) (n : Z) : bool :=
  match compare_frac x n 1 with
  | Some Gt => true
  | _ => false
  end.


(** The interpreter: the file runs on Python 2 and on Python 3 up to 3.6
    ([async] is an argument name). The two differ in [round] (half away
    from zero against half to even) and in the exception [time.sleep]
    raises on a negative length. *)
Inductive python : Set := Py2 | Py3.

(** [int(x)] of a float: truncation towards zero, [ValueError] on a NaN
    and [OverflowError] on an infinity. *)
Definition int (x : float) : result Z :=
  match x with
  | S754_nan => Raise ValueError
  | S754_infinity _ => Raise OverflowError
  | S754_zero _ => Ok 0
  | S754_finite s m e =>
      Ok (cond_Zopp s (Zpos m * 2 ^ Z.max e 0 / denominator e))
  end.

(** The integer nearest to the fraction [a / d] of two naturals, a tie
    going away from zero on Python 2 and to the even neighbour on
    Python 3. *)
Definition round_fraction (py : python) (a d : Z) : Z :=
  let q := a / d in
  match 2 * (a mod d) ?= d with
  | Lt => q
  | Gt => q + 1
  | Eq => match py with
          | Py2 => q + 1
          | Py3 => if Z.even q then q else q + 1
          end
  end.

(** [round(x)] with one argument, read as an integer. On Python 3 it is an
    [int] and the exceptions are those of [round]; on Python 2 it is a
    float with an integer value, which the code turns into an [int] by the
    [int(absolute)] it returns, and the exceptions are those of that
    [int]. *)
Definition round (py : python) (x : float) : result Z :=
  match x with
  | S754_nan => Raise ValueError
  | S754_infinity _ => Raise OverflowError
  | S754_zero _ => Ok 0
  | S754_finite s m e =>
      Ok (cond_Zopp s (round_fraction py (Zpos m * 2 ^ Z.max e 0) (denominator e)))
  end.

(** The rounding step of a float operation once the mantissa has been
    shifted: the end of [binary_round_aux] of the standard library, under
    a name. *)
Definition stage2 (s : bool) (mr E : Z) : spec_float :=
  let '(mrs, e2) := shr_fexp 53 1024 mr E loc_Exact in
  match shr_m mrs with
  | Z0 => S754_zero s
  | Zpos m => if e2 <=? 1024 - 53 then S754_finite s m e2 else S754_infinity s
  | Zneg _ => S754_nan
  end.

(** ** Helpers of the [pylgbst] package and of the Python library *)

(** Modelled from the spec: [int2byte] of the package, which is not among
    the sources. It makes the one-byte string of an unsigned byte value,
    as [chr(val)] does, with a [ValueError] outside [range(256)]. *)
Definition int2byte (val : Z) : result bytes :=
  if (0 <=? val) && (val <? 256) then Ok [val] else Raise ValueError.

(** Modelled from the spec: [get_byte] of the package, which is not among
    the sources. It reads the byte at a fixed offset of a buffer, as
    [ord(seq[index])] does, with an [IndexError] past the end. *)
Definition get_byte (seq : bytes) (index : nat) : result Z :=
  match seq !! index with
  | Some b => Ok b
  | None => Raise IndexError
  end.

(** [struct.pack('<H', n)]: two bytes, low byte first; [struct.error]
    when [n] is not an unsigned 16-bit number. *)
Definition pack_H (n : Z) : result bytes :=
  if (0 <=? n) && (n <? 2 ^ 16) then Ok [n mod 256; n / 256]
  else Raise StructError.

(** [struct.pack('<I', n)]: four bytes, low byte first. *)
Definition pack_I (n : Z) : result bytes :=
  if (0 <=? n) && (n <? 2 ^ 32)
  then Ok [n mod 256; n / 256 mod 256; n / 65536 mod 256; n / 16777216]
  else Raise StructError.

(** [time.sleep(secs)]: a negative length is refused (a NaN cannot reach
    it, [int] having raised before). *)
Definition sleep (py : python) (secs : float) : M unit :=
  if lt_int secs 0
  then raise (match py with Py2 => IOError | Py3 => ValueError end)
  else modify (fun st => set_slept (slept st ++ [secs]) st).

(** [log.debug(...)] of [TiltSensor.handle_notification]. *)
Definition log_debug (m : Z) : M unit :=
  modify (fun st => set_debug (debug st ++ [m]) st).

(** [for x in self._subscribers: body(x)], the set being the live
    attribute and not a copy of it. The iterator of a Python set remembers
    the size the set had when the loop began ([used]) and compares it with
    the size the set has each time the loop asks for the next element, the
    last time included: a difference raises
    [RuntimeError: Set changed size during iteration]. [pending] are the
    elements the loop has not reached. When the body replaces elements and
    leaves the size as it was, which elements the interpreter still
    visits depends on the layout of its hash table; the loop below then
    goes on with [pending], and no statement of this development is about
    that case. *)
Fixpoint for_each_live (used : nat) (body : callback -> M unit)
    (pending : list callback) : M unit :=
  subs ← gets _subscribers;
  if decide (size subs = used) then
    match pending with
    | [] => mret tt
    | cb :: pending' => body cb ;; for_each_live used body pending'
    end
  else raise RuntimeError.

(** [parent.connection.write(handle, data)]. The connection class is not
    among the sources; the call is modelled up to the point where the
    handle and the bytes have been handed to it, which is what [wire]
    records, and as returning from there. *)
Definition connection_write (handle : Z) (data : bytes) : M unit :=
  modify (fun st => set_wire (wire st ++ [(handle, data)]) st).

(** ** class Peripheral *)

Module Peripheral.
Section WithConstants.
Variable K : constants.

(** [mode] is an attribute of tilt sensors only, set by
    [TiltSensor.__init__]; the other peripherals never read it. *)
Definition __init__ (port : Z) : state :=
  {| port := port; working := false; _subscribers := ∅; mode := 0;
     wire := []; slept := []; calls := []; debug := [] |}.

Definition _write_to_hub (msg_type : Z) (params : bytes) : M unit :=
  v ← lift (int2byte (PACKET_VER K));
  t ← lift (int2byte msg_type);
  self_port ← gets port;
  p ← lift (int2byte self_port);
  let cmd := v ++ t ++ p in
  let cmd := cmd ++ params in
  len ← lift (int2byte (Z.of_nat (length cmd) + 1));
  connection_write (MOVE_HUB_HARDWARE_HANDLE K) (len ++ cmd).

Definition _set_port_val (value : bytes) : M unit :=
  _write_to_hub (MSG_SET_PORT_VAL K) value.

Definition _subscribe_on_port (params : bytes) : M unit :=
  _write_to_hub (MSG_SENSOR_SUBSCRIBE K) params.

Definition started : M unit := modify (set_working true).

Definition finished : M unit := modify (set_working false).

(** What calling a subscriber with a tuple of values does. *)
Variable subscriber : callback -> list Z -> M unit.

(** One call of a subscriber with the tuple [args]. *)
Definition invoke (args : list Z) (cb : callback) : M unit :=
  modify (fun st => set_calls (calls st ++ [(cb, args)]) st) ;;
  subscriber cb args.

Definition _notify_subscribers (args : list Z) : M unit :=
  subs ← gets _subscribers;
  for_each_live (size subs) (invoke args) (elements subs).

End WithConstants.
End Peripheral.

(** ** class EncodedMotor *)

Module EncodedMotor.
Section WithConstants.
Variable py : python.
Variable K : constants.

Definition TRAILER : bytes := [100; 127; 3].
Definition MOVEMENT_TYPE : bytes := [17].
Definition TIMED_SINGLE : bytes := [9].
Definition TIMED_GROUP : bytes := [10].
Definition ANGLED_SINGLE : bytes := [11].
Definition ANGLED_GROUP : bytes := [12].

Definition __init__ (port : Z) : result state :=
  let self := Peripheral.__init__ port in
  if negb ((port =? PORT_A K) || (port =? PORT_B K) || (port =? PORT_AB K)
           || (port =? PORT_C K) || (port =? PORT_D K))
  then Raise ValueError
  else Ok self.

Definition _speed_abs (relative : float) : result Z :=
  if lt_int relative (-1) || gt_int relative 1 then Raise ValueError
  else
    match round py (fmul relative (of_int 100)) with
    | Ok absolute =>
        let absolute := if absolute <? 0 then absolute + 255 else absolute in
        Ok absolute
    | Raise e => Raise e
    end.

Definition _wrap_and_write (command : bytes)
    (speed_primary speed_secondary : float) : M unit :=
  let command := MOVEMENT_TYPE ++ command in
  a ← lift (_speed_abs speed_primary);
  b ← lift (int2byte a);
  let command := command ++ b in
  self_port ← gets port;
  command ← (if self_port =? PORT_AB K
             then a' ← lift (_speed_abs speed_secondary);
                  b' ← lift (int2byte a');
                  mret (command ++ b')
             else mret command);
  let command := command ++ TRAILER in
  Peripheral._set_port_val K command.

(** [speed_secondary = None] is the default of the method;
    [speed_primary] defaults to 1 and [async] to [false]. *)
Definition timed (seconds speed_primary : float)
    (speed_secondary : option float) (async : bool) : M unit :=
  let speed_secondary := default speed_primary speed_secondary in
  self_port ← gets port;
  let command :=
    if self_port =? PORT_AB K then TIMED_GROUP else TIMED_SINGLE in
  msec ← lift (int (fmul seconds (of_int 1000)));
  if 2 ^ 16 <=? msec then raise ValueError
  else
    packed ← lift (pack_H msec);
    let command := command ++ packed in
    _wrap_and_write command speed_primary speed_secondary ;;
    if negb async then sleep py seconds else mret tt.

Definition angled (angle : Z) (speed_primary : float)
    (speed_secondary : option float) : M unit :=
  let speed_secondary := default speed_primary speed_secondary in
  self_port ← gets port;
  let command :=
    if self_port =? PORT_AB K then ANGLED_GROUP else ANGLED_SINGLE in
  packed ← lift (pack_I angle);
  let command := command ++ packed in
  _wrap_and_write command speed_primary speed_secondary.

End WithConstants.
End EncodedMotor.

(** ** class TiltSensor *)

Module TiltSensor.
Section WithConstants.
Variable K : constants.
Variable subscriber : callback -> list Z -> M unit.

Definition __init__ (port : Z) : state :=
  set_mode (TILT_SENSOR_MODE_OFF K) (Peripheral.__init__ port).

Definition _switch_mode (mode : Z) : M unit :=
  modify (set_mode mode) ;;
  m ← lift (int2byte mode);
  Peripheral._subscribe_on_port K (m ++ [1; 0; 0; 0; 1]).

(** [mode] defaults to [TILT_SENSOR_MODE_BASIC]. *)
Definition subscribe (cb : callback) (mode : Z) : M unit :=
  if negb ((mode =? TILT_SENSOR_MODE_BASIC K)
           || (mode =? TILT_SENSOR_MODE_2AXIS K)
           || (mode =? TILT_SENSOR_MODE_FULL K))
  then raise ValueError
  else
    _switch_mode mode ;;
    modify (fun st => set_subscribers ({[cb]} ∪ _subscribers st) st).

Definition unsubscribe (cb : callback) : M unit :=
  subs ← gets _subscribers;
  (if decide (cb ∈ subs)
   then modify (set_subscribers (subs ∖ {[cb]}))
   else raise KeyError) ;;
  subs ← gets _subscribers;
  if decide (subs = ∅) then _switch_mode (TILT_SENSOR_MODE_OFF K)
  else mret tt.

Definition _byte2deg (val : Z) : Z :=
  if 90 <? val then val - 256 else val.

Definition handle_notification (data : bytes) : M unit :=
  self_mode ← gets mode;
  if self_mode =? TILT_SENSOR_MODE_BASIC K then
    b ← lift (get_byte data 4);
    Peripheral._notify_subscribers subscriber [b]
  else if self_mode =? TILT_SENSOR_MODE_FULL K then
    b4 ← lift (get_byte data 4);
    let roll := _byte2deg b4 in
    b5 ← lift (get_byte data 5);
    let pitch := _byte2deg b5 in
    Peripheral._notify_subscribers subscriber [roll; pitch]
  else if self_mode =? TILT_SENSOR_MODE_2AXIS K then
    b ← lift (get_byte data 4);
    Peripheral._notify_subscribers subscriber [b]
  else
    log_debug self_mode.

End WithConstants.
End TiltSensor.

(** ** Readings used by the statements *)

(** The packet layout: length, version, message type, port, payload. *)
Definition packet (K : constants) (msg_type port : Z) (payload : bytes) : bytes :=
  4 + Z.of_nat (length payload) :: PACKET_VER K :: msg_type :: port :: payload.

(** The signed (two's complement) reading of a byte. *)
Definition signed_byte (b : Z) : Z := if 128 <=? b then b - 256 else b.

(** [decodeSpeed] in the words of the spec: the signed reading of the wire
    byte, divided by 100. The sources only encode; the decoder is the one
    the round trip of the speed byte is stated with. *)
Definition decodeSpeed (b : Z) : Q := (inject_Z (signed_byte b) / 100)%Q.

(** The rational number a float is (0 where it is none). *)
Definition value (x : float) : Q :=
  match x with
  | S754_finite s m e => numerator s m e # Z.to_pos (denominator e)
  | _ => 0
  end.

(** The reading of a two-byte little-endian field. *)
Definition unpack_H (lo hi : Z) : Z := lo + 256 * hi.

(** [-1 <= relative <= 1]. *)
Definition valid_speed (relative : float) : Prop :=
  ge_frac relative (-1) 1 = true /\ le_frac relative 1 1 = true.

(** [0 <= seconds <= 65.535], the bound being the decimal fraction and
    not the double next to it. *)
Definition valid_seconds (seconds : float) : Prop :=
  ge_frac seconds 0 1 = true /\ le_frac seconds 65535 1000 = true.

(** The byte [_speed_abs] computes for a speed it accepts (0 where it
    raises). *)
Definition speed_byte (py : python) (relative : float) : Z :=
  match EncodedMotor._speed_abs py relative with
  | Ok absolute => absolute
  | Raise _ => 0
  end.

(** The speed bytes of a motor command: one, or two on the combined port. *)
Definition speed_bytes (py : python) (K : constants) (port : Z)
    (speed_primary speed_secondary : float) : bytes :=
  speed_byte py speed_primary ::
  (if port =? PORT_AB K then [speed_byte py speed_secondary] else []).

(** The version, both message types and the mode code of a tilt sensor
    that is off, which the code passes to [int2byte], are byte values. *)
Definition byte_constants (K : constants) : Prop :=
  is_byte (PACKET_VER K) /\ is_byte (MSG_SET_PORT_VAL K) /\
  is_byte (MSG_SENSOR_SUBSCRIBE K) /\ is_byte (TILT_SENSOR_MODE_OFF K).


(** A valuation of the constants on which the model can be run. The
    subscribe message type (0x41) and the codes of the ports A, B, C and D
    (0x37, 0x38, 0x01, 0x02) are those of the [LISTEN_*] packets at the end
    of the source file; the other values are samples. *)
Definition move_hub : constants :=
  {| PACKET_VER := 1; MSG_SET_PORT_VAL := 129; MSG_SENSOR_SUBSCRIBE := 65;
     MOVE_HUB_HARDWARE_HANDLE := 14;
     PORT_A := 55; PORT_B := 56; PORT_AB := 57; PORT_C := 1; PORT_D := 2;
     TILT_SENSOR_MODE_OFF := 0; TILT_SENSOR_MODE_BASIC := 2;
     TILT_SENSOR_MODE_2AXIS := 1; TILT_SENSOR_MODE_FULL := 4 |}.

#[export] Instance is_byte_dec (v : Z) : Decision (is_byte v).
Proof. unfold is_byte. apply _. Defined.




(** ** class LED and class Button *)

Module LED.
Section WithConstants.
Variable K : constants.

(** The keys of the table [COLORS] of [pylgbst.constants]. *)
Variable COLORS : gset Z.

(** The command is the concatenation of a string literal and of the
    result of [int2byte]: both are byte strings, as on Python 2. *)
Definition set_color (color : Z) : M unit :=
  if decide (color ∈ COLORS) then
    c ← lift (int2byte color);
    let cmd := [17; 81; 0] ++ c in
    Peripheral._set_port_val K cmd
  else raise ValueError.

End WithConstants.
End LED.

Module Button.

Definition __init__ : state := Peripheral.__init__ 0.

End Button.

(** ** Sequences of calls *)

(** The methods a caller has on a motor and on a tilt sensor. *)
Inductive motor_call : Type :=
  | Timed (seconds speed_primary : float) (speed_secondary : option float)
      (async : bool)
  | Angled (angle : Z) (speed_primary : float) (speed_secondary : option float).

Inductive tilt_call : Type :=
  | Subscribe (cb : callback) (mode : Z)
  | Unsubscribe (cb : callback)
  | Notification (data : bytes).

Definition motor_step (py : python) (K : constants) (c : motor_call) : M unit :=
  match c with
  | Timed seconds speed_primary speed_secondary async =>
      EncodedMotor.timed py K seconds speed_primary speed_secondary async
  | Angled angle speed_primary speed_secondary =>
      EncodedMotor.angled py K angle speed_primary speed_secondary
  end.

Definition tilt_step (K : constants)
    (subscriber : callback -> list Z -> M unit) (c : tilt_call) : M unit :=
  match c with
  | Subscribe cb mode => TiltSensor.subscribe K cb mode
  | Unsubscribe cb => TiltSensor.unsubscribe K cb
  | Notification data => TiltSensor.handle_notification K subscriber data
  end.

(** The state after a caller has made the calls one after the other,
    going on after a call that raised. *)
Fixpoint after_calls {C : Type} (step : C -> M unit) (cs : list C)
    (st : state) : state :=
  match cs with
  | [] => st
  | c :: cs' => after_calls step cs' (snd (step c st))
  end.

(** ** More readings *)

(** The reading of a four-byte little-endian field. *)
Definition unpack_I (b0 b1 b2 b3 : Z) : Z :=
  b0 + 256 * b1 + 65536 * b2 + 16777216 * b3.

(** A byte string that starts with its own length. *)
Definition wellformed_packet (pkt : bytes) : Prop :=
  Forall is_byte pkt /\ pkt !! 0%nat = Some (Z.of_nat (length pkt)).

(** The packet [_switch_mode] sends for a mode. *)
Definition mode_packet (K : constants) (port mode : Z) : Z * bytes :=
  (MOVE_HUB_HARDWARE_HANDLE K,
   packet K (MSG_SENSOR_SUBSCRIBE K) port [mode; 1; 0; 0; 0; 1]).

(** The three modes [subscribe] accepts. *)
Definition subscribable (K : constants) (mode : Z) : Prop :=
  mode = TILT_SENSOR_MODE_BASIC K \/ mode = TILT_SENSOR_MODE_2AXIS K \/
  mode = TILT_SENSOR_MODE_FULL K.

(** Everything [_write_to_hub] turns into bytes for a tilt sensor on
    [port] is a byte value. *)
Definition tilt_bytes (K : constants) (port : Z) : Prop :=
  is_byte (PACKET_VER K) /\ is_byte (MSG_SENSOR_SUBSCRIBE K) /\ is_byte port /\
  is_byte (TILT_SENSOR_MODE_OFF K) /\ is_byte (TILT_SENSOR_MODE_BASIC K) /\
  is_byte (TILT_SENSOR_MODE_2AXIS K) /\ is_byte (TILT_SENSOR_MODE_FULL K).

(** * Properties *)

(** ** The monad and the helpers *)

Lemma int2byte_spec (v : Z) :
  int2byte v = if decide (is_byte v) then Ok [v] else Raise ValueError.
Proof.
  unfold int2byte, is_byte.
  case_decide; destruct (Z.leb_spec 0 v), (Z.ltb_spec v 256); simpl;
    first [reflexivity | lia].
Qed.

Lemma int2byte_ok (v : Z) : is_byte v -> int2byte v = Ok [v].
Proof. intros Hv. rewrite int2byte_spec. by case_decide. Qed.

Lemma int2byte_inv (v : Z) (b : bytes) : int2byte v = Ok b -> is_byte v /\ b = [v].
Proof. rewrite int2byte_spec. case_decide; intros [= <-]; auto. Qed.

(** What [_write_to_hub] does, in one equation: the four [int2byte] calls
    come before the write, so an exception leaves the state as it was. *)
Lemma write_to_hub_run (K : constants) (msg_type : Z) (params : bytes) (st : state) :
  Peripheral._write_to_hub K msg_type params st =
  if decide (is_byte (PACKET_VER K) /\ is_byte msg_type /\ is_byte (port st) /\
             4 + Z.of_nat (length params) < 256)
  then (Ok tt, set_wire (wire st ++
          [(MOVE_HUB_HARDWARE_HANDLE K, packet K msg_type (port st) params)]) st)
  else (Raise ValueError, st).
Proof.
  unfold Peripheral._write_to_hub, mbind, M_bind, lift, gets, connection_write, modify.
  rewrite !int2byte_spec.
  destruct (decide (is_byte (PACKET_VER K))) as [Hv|Hv];
    [|case_decide; [tauto | reflexivity]].
  destruct (decide (is_byte msg_type)) as [Ht|Ht];
    [|case_decide; [tauto | reflexivity]].
  destruct (decide (is_byte (port st))) as [Hp|Hp];
    [|case_decide; [tauto | reflexivity]].
  rewrite int2byte_spec. cbn [app length].
  unfold is_byte at 1.
  repeat case_decide; try reflexivity.
  - unfold packet. cbn [app].
    by replace (Z.of_nat (S (S (S (length params)))) + 1)
      with (4 + Z.of_nat (length params)) by lia.
  - exfalso. intuition lia.
  - exfalso. intuition lia.
Qed.

(** ** Peripheral._write_to_hub *)

(** C1: whenever [_write_to_hub] produces a packet, the first byte of that
    packet is the packet's own length, which is 4 plus the length of the
    payload handed in (the payload follows the four header bytes
    unchanged); and it does produce one whenever the version, the message
    type and the port are byte values and the packet length fits a byte. *)
Theorem write_to_hub_length_byte (K : constants) (msg_type : Z)
    (params : bytes) (st : state) :
  (forall st', Peripheral._write_to_hub K msg_type params st = (Ok tt, st') ->
     exists pkt,
       wire st' = wire st ++ [(MOVE_HUB_HARDWARE_HANDLE K, pkt)] /\
       pkt !! 0%nat = Some (Z.of_nat (length pkt)) /\
       Z.of_nat (length pkt) = 4 + Z.of_nat (length params) /\
       drop 4 pkt = params) /\
  (is_byte (PACKET_VER K) -> is_byte msg_type -> is_byte (port st) ->
   4 + Z.of_nat (length params) < 256 ->
   exists st', Peripheral._write_to_hub K msg_type params st = (Ok tt, st')).
Proof.
  rewrite write_to_hub_run. split.
  - intros st'. case_decide; [|discriminate]. intros [= <-].
    exists (packet K msg_type (port st) params). cbn.
    repeat split; [f_equal|]; lia.
  - intros Hv Ht Hp Hlen. rewrite decide_True by auto. eauto.
Qed.

Lemma write_to_hub_length_byte_witness :
  exists st', Peripheral._write_to_hub move_hub 129 [17; 81; 0; 5]
                (Peripheral.__init__ 50) = (Ok tt, st').
Proof.
  apply (proj2 (write_to_hub_length_byte move_hub 129 [17; 81; 0; 5]
                  (Peripheral.__init__ 50)));
    unfold is_byte; simpl; lia.
Defined.

(** ** Floats: rounding does not cross an integer *)

Lemma digits2_pos_upper (m : positive) : Zpos m < 2 ^ Zpos (digits2_pos m).
Proof.
  induction m as [m IH|m IH|]; simpl digits2_pos.
  - rewrite Pos2Z.inj_succ, Z.pow_succ_r by lia. lia.
  - rewrite Pos2Z.inj_succ, Z.pow_succ_r by lia. lia.
  - reflexivity.
Qed.

Lemma digits2_pos_lower (m : positive) : 2 ^ (Zpos (digits2_pos m) - 1) <= Zpos m.
Proof.
  induction m as [m IH|m IH|]; simpl digits2_pos.
  - rewrite Pos2Z.inj_succ.
    replace (Z.succ (Zpos (digits2_pos m)) - 1) with (Z.succ (Zpos (digits2_pos m) - 1)) by lia.
    rewrite Z.pow_succ_r by lia. lia.
  - rewrite Pos2Z.inj_succ.
    replace (Z.succ (Zpos (digits2_pos m)) - 1) with (Z.succ (Zpos (digits2_pos m) - 1)) by lia.
    rewrite Z.pow_succ_r by lia. lia.
  - simpl. lia.
Qed.

Lemma shr_1_spec (m : Z) (r s : bool) :
  0 <= m ->
  shr_m (shr_1 {| shr_m := m; shr_r := r; shr_s := s |}) = m / 2 /\
  (m mod 2 = 0 -> r = false -> s = false ->
   shr_r (shr_1 {| shr_m := m; shr_r := r; shr_s := s |}) = false /\
   shr_s (shr_1 {| shr_m := m; shr_r := r; shr_s := s |}) = false).
Proof.
  intros Hm. destruct m as [|[p|p|]|p]; simpl; try lia.
  - split; [reflexivity|]. by intros _ -> ->.
  - split.
    + rewrite Pos2Z.inj_xI. apply Z.div_unique with 1; lia.
    + rewrite Pos2Z.inj_xI. intros Hmod.
      assert ((2 * Zpos p + 1) mod 2 = 1)
        by (symmetry; apply Z.mod_unique with (Zpos p); lia).
      lia.
  - split.
    + rewrite Pos2Z.inj_xO. apply Z.div_unique with 0; lia.
    + by intros _ -> ->.
  - split; [reflexivity|]. intros Hmod. by vm_compute in Hmod.
Qed.

Lemma iter_shr_1_spec (p : positive) (rec : shr_record) :
  0 <= shr_m rec ->
  shr_m (SpecFloat.iter_pos shr_1 p rec) = shr_m rec / 2 ^ Zpos p /\
  (shr_m rec mod 2 ^ Zpos p = 0 -> shr_r rec = false -> shr_s rec = false ->
   shr_r (SpecFloat.iter_pos shr_1 p rec) = false /\ shr_s (SpecFloat.iter_pos shr_1 p rec) = false).
Proof.
  revert rec.
  assert (forall k, 0 < 2 ^ Zpos k) as Hpos by (intros; apply Z.pow_pos_nonneg; lia).
  assert (forall (a b c : Z), 0 < b -> 0 < c -> a / b / c = a / (b * c)) as Hdd
    by (intros; apply Z.div_div; lia).
  assert (forall (a b c : Z), 0 < b -> 0 < c -> a mod (b * c) = 0 ->
            a mod b = 0 /\ (a / b) mod c = 0) as Hmm.
  { intros a b c Hb Hc Hz. rewrite Z.rem_mul_r in Hz by lia.
    pose proof (Z.mod_pos_bound a b Hb). pose proof (Z.mod_pos_bound (a / b) c Hc).
    nia. }
  induction p as [p IH|p IH|]; intros [m r s] Hm; cbn [shr_m shr_r shr_s] in *.
  - (* xI *)
    cbn [SpecFloat.iter_pos].
    destruct (shr_1_spec m r s Hm) as [H1 F1].
    set (r1 := shr_1 _) in *.
    assert (0 <= shr_m r1) as Hm1 by (rewrite H1; apply Z.div_pos; lia).
    destruct (IH r1 Hm1) as [H2 F2].
    set (r2 := SpecFloat.iter_pos shr_1 p r1) in *.
    assert (0 <= shr_m r2) as Hm2
      by (rewrite H2; apply Z.div_pos; [lia | apply Hpos]).
    destruct (IH r2 Hm2) as [H3 F3].
    assert (2 ^ Zpos p~1 = 2 * (2 ^ Zpos p * 2 ^ Zpos p)) as Hpow.
    { rewrite <- Z.pow_add_r by lia. rewrite <- Z.pow_succ_r by lia.
      f_equal. lia. }
    split.
    + rewrite H3, H2, H1, Hpow.
      pose proof (Hpos p).
      rewrite !Hdd by nia. f_equal; lia.
    + rewrite Hpow. intros Hmod Hr Hs.
      apply Hmm in Hmod as [Ha Hb]; [|lia|pose proof (Hpos p); nia].
      apply Hmm in Hb as [Hb Hc]; [|apply Hpos|apply Hpos].
      destruct (F1 Ha Hr Hs) as [Hr1 Hs1].
      rewrite <- H1 in Hb, Hc.
      destruct (F2 Hb Hr1 Hs1) as [Hr2 Hs2].
      rewrite <- H2 in Hc. exact (F3 Hc Hr2 Hs2).
  - (* xO *)
    cbn [SpecFloat.iter_pos].
    destruct (IH {| shr_m := m; shr_r := r; shr_s := s |} Hm) as [H2 F2].
    cbn [shr_m shr_r shr_s] in *.
    set (r2 := SpecFloat.iter_pos shr_1 p _) in *.
    assert (0 <= shr_m r2) as Hm2
      by (rewrite H2; apply Z.div_pos; [lia | apply Hpos]).
    destruct (IH r2 Hm2) as [H3 F3].
    assert (2 ^ Zpos p~0 = 2 ^ Zpos p * 2 ^ Zpos p) as Hpow.
    { rewrite <- Z.pow_add_r by lia. f_equal. lia. }
    split.
    + rewrite H3, H2, Hpow. by rewrite Hdd by apply Hpos.
    + rewrite Hpow. intros Hmod Hr Hs.
      apply Hmm in Hmod as [Hb Hc]; [|apply Hpos|apply Hpos].
      destruct (F2 Hb Hr Hs) as [Hr2 Hs2].
      rewrite <- H2 in Hc. exact (F3 Hc Hr2 Hs2).
  - cbn [SpecFloat.iter_pos]. apply (shr_1_spec m r s Hm).
Qed.

Lemma pow2_pos (k : Z) : 0 <= k -> 0 < 2 ^ k.
Proof. intros. apply Z.pow_pos_nonneg; lia. Qed.

(** If a positive mantissa [q] is below [N * 2^k] with [N < 2^53] then it
    has at most [53 + k] binary digits. *)
Lemma digits_bound (q : positive) (N k : Z) :
  0 <= k -> N < 2 ^ 53 -> Zpos q <= N * 2 ^ k ->
  Zpos (digits2_pos q) <= 53 + k.
Proof.
  intros Hk HN Hq.
  pose proof (digits2_pos_lower q) as Hlow.
  pose proof (pow2_pos k Hk) as Hpk.
  assert (2 ^ (Zpos (digits2_pos q) - 1) < 2 ^ (53 + k)) as Hlt.
  { rewrite Z.pow_add_r by lia. nia. }
  apply Z.pow_lt_mono_r_iff in Hlt; lia.
Qed.

Lemma binary_round_aux_stage2 (s : bool) (mx ex : Z) (lx : location) :
  binary_round_aux 53 1024 s mx ex lx =
  stage2 s (round_nearest_even (shr_m (fst (shr_fexp 53 1024 mx ex lx)))
                               (loc_of_shr_record (fst (shr_fexp 53 1024 mx ex lx))))
           (snd (shr_fexp 53 1024 mx ex lx)).
Proof.
  unfold binary_round_aux, stage2.
  by destruct (shr_fexp 53 1024 mx ex lx).
Qed.

Lemma round_stage2 (s : bool) (mr E N : Z) :
  0 <= mr -> -1074 <= E <= 0 -> N < 2 ^ 53 -> mr <= N * 2 ^ (- E) ->
  stage2 s mr E = S754_zero s \/
  exists m2 e2,
    stage2 s mr E = S754_finite s m2 e2 /\ e2 <= 0 /\ Zpos m2 <= N * 2 ^ (- e2).
Proof.
  intros Hmr HE HN Hb.
  unfold stage2, shr_fexp, shr. cbn [shr_record_of_loc].
  destruct (fexp 53 1024 (Zdigits2 mr + E) - E) as [|p2|p2] eqn:Hn2.
  - cbv beta iota zeta delta [shr_m]. destruct mr as [|q|q].
    + by left.
    + right. exists q, E. destruct (Z.leb_spec E (1024 - 53)); [|exfalso; lia].
      split; [reflexivity|]. split; [lia | exact Hb].
    + lia.
  - unfold fexp, emin in Hn2.
    destruct mr as [|q|q]; [simpl in Hn2; lia|idtac|lia].
    cbn [Zdigits2] in Hn2.
    pose proof (digits_bound q N (- E) ltac:(lia) HN Hb) as Hd.
    pose proof (iter_shr_1_spec p2 {| shr_m := Zpos q; shr_r := false; shr_s := false |}
                  ltac:(cbn; lia)) as [Hm _].
    cbn [shr_m] in Hm. cbv beta iota zeta. rewrite Hm.
    assert (E + Zpos p2 <= 0) as He2 by lia.
    assert (Zpos q / 2 ^ Zpos p2 <= N * 2 ^ (- (E + Zpos p2))) as Hq.
    { apply Z.div_le_upper_bound; [apply pow2_pos; lia|].
      replace (- E) with (Zpos p2 + - (E + Zpos p2)) in Hb by lia.
      rewrite Z.pow_add_r in Hb by lia. lia. }
    assert (0 <= Zpos q / 2 ^ Zpos p2) as Hq0
      by (apply Z.div_pos; [lia | apply pow2_pos; lia]).
    destruct (Zpos q / 2 ^ Zpos p2) as [|m2|m2].
    + by left.
    + right. exists m2, (E + Zpos p2).
      destruct (Z.leb_spec (E + Zpos p2) (1024 - 53)); [|exfalso; lia].
      split; [reflexivity|]. split; [exact He2 | exact Hq].
    + lia.
  - cbv beta iota zeta delta [shr_m]. destruct mr as [|q|q].
    + by left.
    + right. exists q, E. destruct (Z.leb_spec E (1024 - 53)); [|exfalso; lia].
      split; [reflexivity|]. split; [lia | exact Hb].
    + lia.
Qed.

Lemma round_nearest_even_upper (rec : shr_record) :
  round_nearest_even (shr_m rec) (loc_of_shr_record rec) <= shr_m rec + 1 /\
  shr_m rec <= round_nearest_even (shr_m rec) (loc_of_shr_record rec) /\
  (shr_r rec = false -> shr_s rec = false ->
   round_nearest_even (shr_m rec) (loc_of_shr_record rec) = shr_m rec).
Proof.
  destruct rec as [m [] []]; cbn; repeat split; try lia; try discriminate;
    destruct (Z.even m); lia.
Qed.

(** The rounding of a positive number that is at most [N], an integer
    below [2^53], gives zero or a double that is at most [N]. *)
Lemma binary_round_aux_upper (s : bool) (m : positive) (e N : Z) :
  e <= 0 -> N < 2 ^ 53 -> Zpos m <= N * 2 ^ (- e) ->
  binary_round_aux 53 1024 s (Zpos m) e loc_Exact = S754_zero s \/
  exists m2 e2,
    binary_round_aux 53 1024 s (Zpos m) e loc_Exact = S754_finite s m2 e2 /\
    e2 <= 0 /\ Zpos m2 <= N * 2 ^ (- e2).
Proof.
  intros He HN Hb. rewrite binary_round_aux_stage2.
  pose proof (digits_bound m N (- e) ltac:(lia) HN Hb) as Hd.
  unfold shr_fexp, shr. cbn [shr_record_of_loc Zdigits2].
  destruct (fexp 53 1024 (Zpos (digits2_pos m) + e) - e) as [|p|p] eqn:Hn.
  - cbn [fst snd shr_m loc_of_shr_record round_nearest_even].
    unfold fexp, emin in Hn.
    apply (round_stage2 s (Zpos m) e N); lia.
  - unfold fexp, emin in Hn. cbn [fst snd].
    set (rec := SpecFloat.iter_pos shr_1 p _).
    pose proof (iter_shr_1_spec p {| shr_m := Zpos m; shr_r := false; shr_s := false |}
                  ltac:(cbn; lia)) as [Hm Hflags].
    fold rec in Hm, Hflags. cbn [shr_m shr_r shr_s] in Hm, Hflags.
    pose proof (round_nearest_even_upper rec) as (Hup & Hlo & Hexact).
    pose proof (pow2_pos (Zpos p) ltac:(lia)) as Hpp.
    assert (e + Zpos p <= 0) as HE by lia.
    assert (Zpos m <= N * 2 ^ (- (e + Zpos p)) * 2 ^ Zpos p) as Hb'.
    { replace (- e) with (- (e + Zpos p) + Zpos p) in Hb by lia.
      rewrite Z.pow_add_r in Hb by lia. lia. }
    assert (0 <= shr_m rec) as Hm0 by (rewrite Hm; apply Z.div_pos; lia).
    apply (round_stage2 s _ (e + Zpos p) N); try lia.
    destruct (Z.eq_dec (shr_m rec) (N * 2 ^ (- (e + Zpos p)))) as [Heq|Hne].
    + assert (Zpos m mod 2 ^ Zpos p = 0) as Hmod.
      { pose proof (Z.mul_div_le (Zpos m) (2 ^ Zpos p) Hpp) as Hle.
        rewrite <- Hm, Heq in Hle.
        assert (Zpos m = N * 2 ^ (- (e + Zpos p)) * 2 ^ Zpos p) as -> by lia.
        apply Z.mod_mul. lia. }
      destruct (Hflags Hmod eq_refl eq_refl) as [Hr Hs].
      rewrite (Hexact Hr Hs). lia.
    + assert (shr_m rec <= N * 2 ^ (- (e + Zpos p))).
      { rewrite Hm. apply Z.div_le_upper_bound; lia. }
      lia.
  - cbn [fst snd shr_m loc_of_shr_record round_nearest_even].
    unfold fexp, emin in Hn.
    apply (round_stage2 s (Zpos m) e N); lia.
Qed.

Lemma of_int_100 : of_int 100 = S754_finite false 7036874417766400 (-46).
Proof. by vm_compute. Qed.

Lemma of_int_1000 : of_int 1000 = S754_finite false 8796093022208000 (-43).
Proof. by vm_compute. Qed.

Lemma denominator_pos (e : Z) : 0 < denominator e.
Proof. unfold denominator. apply pow2_pos. lia. Qed.

Lemma magnitude_pos (m : positive) (e : Z) : 0 < Zpos m * 2 ^ Z.max e 0.
Proof. pose proof (pow2_pos (Z.max e 0) ltac:(lia)). nia. Qed.

(** The product of the double [m * 2^e] with the constant [c * 2^k]
    held in [mc], when the exact product is at most the integer [N]: zero,
    or a double that is at most [N]. *)
Lemma fmul_upper (s : bool) (m mc : positive) (e k c N : Z) :
  0 <= k -> 0 < c -> Zpos mc = c * 2 ^ k ->
  N < 2 ^ 53 -> N < c * 2 ^ (k + 1) ->
  Zpos m * 2 ^ Z.max e 0 * c <= N * denominator e ->
  fmul (S754_finite s m e) (S754_finite false mc (- k)) = S754_zero s \/
  exists m2 e2,
    fmul (S754_finite s m e) (S754_finite false mc (- k)) = S754_finite s m2 e2 /\
    e2 <= 0 /\ Zpos m2 <= N * 2 ^ (- e2).
Proof.
  intros Hk Hc Hmc HN HNc Hb.
  unfold fmul, SFmul. rewrite xorb_false_r.
  pose proof (pow2_pos k Hk) as Hpk.
  unfold denominator in Hb.
  assert (e <= k) as Hek.
  { destruct (Z.le_gt_cases e k) as [|Hgt]; [done|exfalso].
    rewrite Z.max_l, Z.max_r in Hb by lia. rewrite Z.pow_0_r in Hb.
    assert (2 ^ (k + 1) <= 2 ^ e) by (apply Z.pow_le_mono_r; lia).
    assert (0 < 2 ^ (k + 1)) by (apply pow2_pos; lia).
    assert (c * 2 ^ (k + 1) <= c * 2 ^ e) by nia.
    assert (c * 2 ^ e <= Zpos m * (c * 2 ^ e)) by nia.
    lia. }
  apply binary_round_aux_upper; [lia | exact HN |].
  rewrite Pos2Z.inj_mul, Hmc.
  replace (- (e + - k)) with (k - e) by lia.
  destruct (Z.le_gt_cases e 0) as [He|He].
  - rewrite Z.max_r, Z.max_l in Hb by lia. rewrite Z.pow_0_r in Hb.
    replace (k - e) with (- e + k) by lia. rewrite Z.pow_add_r by lia.
    pose proof (pow2_pos (- e) ltac:(lia)). nia.
  - rewrite Z.max_l, Z.max_r in Hb by lia. rewrite Z.pow_0_r in Hb.
    replace k with (e + (k - e)) at 1 by lia. rewrite Z.pow_add_r by lia.
    pose proof (pow2_pos (k - e) ltac:(lia)). pose proof (pow2_pos e ltac:(lia)). nia.
Qed.

Lemma round_fraction_bound (py : python) (a d N : Z) :
  0 <= a -> 0 < d -> a <= N * d -> 0 <= round_fraction py a d <= N.
Proof.
  intros Ha Hd Hb. unfold round_fraction.
  pose proof (Z.div_mod a d ltac:(lia)) as Hdm.
  pose proof (Z.mod_pos_bound a d Hd) as Hr.
  assert (0 <= a / d) as Hq by (apply Z.div_pos; lia).
  assert (a / d <= N) as HqN by (apply Z.div_le_upper_bound; lia).
  destruct (Z.compare_spec (2 * (a mod d)) d) as [Heq|Hlt|Hgt].
  - assert (a / d <> N) by nia.
    destruct py; [lia|]. destruct (Z.even (a / d)); lia.
  - lia.
  - assert (a / d <> N) by nia. lia.
Qed.

Lemma trunc_bound (a d N : Z) :
  0 <= a -> 0 < d -> a <= N * d -> 0 <= a / d <= N.
Proof.
  intros Ha Hd Hb. split; [apply Z.div_pos; lia|].
  apply Z.div_le_upper_bound; lia.
Qed.

(** What [ge_frac] and [le_frac] say of a finite double. *)
Lemma ge_frac_finite (s : bool) (m : positive) (e n d : Z) :
  ge_frac (S754_finite s m e) n d = true <->
  n * denominator e <= numerator s m e * d.
Proof.
  unfold ge_frac, compare_frac.
  destruct (Z.compare_spec (numerator s m e * d) (n * denominator e));
    split; intros; first [done | lia].
Qed.

Lemma le_frac_finite (s : bool) (m : positive) (e n d : Z) :
  le_frac (S754_finite s m e) n d = true <->
  numerator s m e * d <= n * denominator e.
Proof.
  unfold le_frac, compare_frac.
  destruct (Z.compare_spec (numerator s m e * d) (n * denominator e));
    split; intros; first [done | lia].
Qed.

Lemma numerator_nonneg (s : bool) (m : positive) (e : Z) :
  0 <= numerator s m e -> s = false.
Proof.
  unfold numerator. pose proof (magnitude_pos m e).
  destruct s; simpl; [lia | done].
Qed.

Lemma numerator_abs (s : bool) (m : positive) (e d : Z) :
  - d <= numerator s m e <= d -> Zpos m * 2 ^ Z.max e 0 <= d.
Proof. unfold numerator. destruct s; simpl; lia. Qed.

(** Of a double that is zero, or finite and at most [N]. *)
Lemma round_small (py : python) (x : float) (s : bool) (N : Z) :
  0 <= N ->
  (x = S754_zero s \/
   exists m2 e2, x = S754_finite s m2 e2 /\ e2 <= 0 /\ Zpos m2 <= N * 2 ^ (- e2)) ->
  exists r, round py x = Ok (cond_Zopp s r) /\ 0 <= r <= N.
Proof.
  intros HN [->|(m2 & e2 & -> & He & Hb)].
  - exists 0. split; [by destruct s | lia].
  - eexists. split; [reflexivity|].
    unfold denominator. rewrite Z.max_r, Z.max_l by lia.
    rewrite Z.pow_0_r, Z.mul_1_r.
    apply round_fraction_bound; [lia | apply pow2_pos; lia | exact Hb].
Qed.

Lemma int_small (x : float) (s : bool) (N : Z) :
  0 <= N ->
  (x = S754_zero s \/
   exists m2 e2, x = S754_finite s m2 e2 /\ e2 <= 0 /\ Zpos m2 <= N * 2 ^ (- e2)) ->
  exists r, int x = Ok (cond_Zopp s r) /\ 0 <= r <= N.
Proof.
  intros HN [->|(m2 & e2 & -> & He & Hb)].
  - exists 0. split; [by destruct s | lia].
  - eexists. split; [reflexivity|].
    unfold denominator. rewrite Z.max_r, Z.max_l by lia.
    rewrite Z.pow_0_r, Z.mul_1_r.
    apply trunc_bound; [lia | apply pow2_pos; lia | exact Hb].
Qed.

(** ** EncodedMotor._speed_abs *)

(** For a speed in [-1, 1] the rounded percentage lies in [-100, 100]:
    the double product does not leave the interval. *)
Lemma round_percent_range (py : python) (relative : float) :
  valid_speed relative ->
  exists absolute,
    round py (fmul relative (of_int 100)) = Ok absolute /\
    -100 <= absolute <= 100.
Proof.
  intros [Hlo Hhi]. rewrite of_int_100.
  destruct relative as [s|s| |s m e].
  - exists 0. split; [reflexivity | lia].
  - destruct s; discriminate.
  - discriminate.
  - apply ge_frac_finite in Hlo. apply le_frac_finite in Hhi.
    pose proof (numerator_abs s m e (denominator e) ltac:(lia)) as Hb.
    destruct (round_small py
                (fmul (S754_finite s m e) (S754_finite false 7036874417766400 (-46)))
                s 100 ltac:(lia)) as (r & -> & Hr).
    + apply (fmul_upper s m _ e 46 100 100).
      1-5: first [lia | reflexivity].
      pose proof (denominator_pos e). nia.
    + eexists. split; [reflexivity|]. destruct s; simpl; lia.
Qed.

Lemma valid_speed_not_out (relative : float) :
  valid_speed relative ->
  lt_int relative (-1) = false /\ gt_int relative 1 = false.
Proof.
  unfold valid_speed, ge_frac, le_frac, lt_int, gt_int.
  intros [Hlo Hhi].
  destruct (compare_frac relative (-1) 1) as [[]|];
    destruct (compare_frac relative 1 1) as [[]|]; done.
Qed.

(** A float is in [-1, 1], below, above, or not a number. *)
Lemma speed_cases (relative : float) :
  valid_speed relative \/ lt_int relative (-1) = true \/
  gt_int relative 1 = true \/ relative = S754_nan.
Proof.
  unfold valid_speed, ge_frac, le_frac, lt_int, gt_int.
  destruct relative as [s|s| |s m e]; [| | by repeat right |];
    unfold compare_frac.
  - left. done.
  - destruct s; auto.
  - destruct (_ ?= _), (_ ?= _); auto.
Qed.

Lemma speed_abs_run (py : python) (relative : float) :
  valid_speed relative ->
  exists absolute,
    round py (fmul relative (of_int 100)) = Ok absolute /\
    -100 <= absolute <= 100 /\
    EncodedMotor._speed_abs py relative =
      Ok (if absolute <? 0 then absolute + 255 else absolute).
Proof.
  intros Hv. destruct (round_percent_range py relative Hv) as (a & Hr & Ha).
  exists a. split; [exact Hr|]. split; [exact Ha|].
  unfold EncodedMotor._speed_abs.
  destruct (valid_speed_not_out relative Hv) as [-> ->]. by rewrite Hr.
Qed.

Lemma speed_abs_ok (py : python) (relative : float) :
  valid_speed relative ->
  EncodedMotor._speed_abs py relative = Ok (speed_byte py relative).
Proof.
  intros Hv. destruct (speed_abs_run py relative Hv) as (a & _ & _ & Hs).
  unfold speed_byte. by rewrite Hs.
Qed.

Lemma speed_abs_err (py : python) (relative : float) :
  lt_int relative (-1) = true \/ gt_int relative 1 = true \/ relative = S754_nan ->
  EncodedMotor._speed_abs py relative = Raise ValueError.
Proof.
  unfold EncodedMotor._speed_abs.
  intros [->| [->| ->]]; [reflexivity | by rewrite orb_true_r | reflexivity].
Qed.

(** The bytes of accepted speeds: 0 to 100 forwards, 155 to 254 backwards. *)
Lemma speed_byte_range (py : python) (relative : float) :
  valid_speed relative ->
  0 <= speed_byte py relative <= 100 \/ 155 <= speed_byte py relative <= 254.
Proof.
  intros Hv. destruct (speed_abs_run py relative Hv) as (a & _ & Ha & Hs).
  unfold speed_byte. rewrite Hs.
  destruct (Z.ltb_spec a 0); lia.
Qed.

Lemma speed_byte_is_byte (py : python) (relative : float) :
  valid_speed relative -> is_byte (speed_byte py relative).
Proof.
  intros Hv. pose proof (speed_byte_range py relative Hv).
  unfold is_byte. lia.
Qed.

(** C2, as the code has it: [_speed_abs] raises, and then a [ValueError],
    exactly when [relative < -1], [relative > 1] or [relative] is not a
    number; for every [relative] in [-1, 1] it returns
    [round(relative * 100)], the rounding of the double product, plus 255
    when that rounded value is negative, and the value returned lies in
    [0, 255]. *)
Theorem speed_abs_spec (py : python) (relative : float) :
  (forall e, EncodedMotor._speed_abs py relative = Raise e <->
             e = ValueError /\
             (lt_int relative (-1) = true \/ gt_int relative 1 = true \/
              relative = S754_nan)) /\
  (valid_speed relative ->
   exists absolute,
     round py (fmul relative (of_int 100)) = Ok absolute /\
     let encoded := if absolute <? 0 then absolute + 255 else absolute in
     EncodedMotor._speed_abs py relative = Ok encoded /\ 0 <= encoded <= 255).
Proof.
  split.
  - intros e. split.
    + intros He. destruct (speed_cases relative) as [Hv|Hout].
      * rewrite (speed_abs_ok py _ Hv) in He. discriminate.
      * rewrite (speed_abs_err py _ Hout) in He. by injection He as <-.
    + intros [-> Hout]. by apply speed_abs_err.
  - intros Hv. destruct (speed_abs_run py relative Hv) as (a & Hr & Ha & Hs).
    exists a. split; [exact Hr|]. split; [exact Hs|].
    destruct (Z.ltb_spec a 0); lia.
Qed.

Lemma speed_abs_spec_witness :
  exists absolute,
    round Py2 (fmul (decimal (-1) 2) (of_int 100)) = Ok absolute /\
    let encoded := if absolute <? 0 then absolute + 255 else absolute in
    EncodedMotor._speed_abs Py2 (decimal (-1) 2) = Ok encoded /\
    0 <= encoded <= 255.
Proof.
  apply (proj2 (speed_abs_spec Py2 (decimal (-1) 2))).
  split; reflexivity.
Defined.

(** A NaN is neither below -1 nor above 1, and [_speed_abs] raises on it:
    the product is a NaN, which [round] (on Python 2, the [int] that
    follows) refuses with a [ValueError]. *)
Lemma speed_abs_nan_raises :
  lt_int S754_nan (-1) = false /\ gt_int S754_nan 1 = false /\
  EncodedMotor._speed_abs Py2 S754_nan = Raise ValueError /\
  EncodedMotor._speed_abs Py3 S754_nan = Raise ValueError.
Proof. by vm_compute. Qed.

(** The speeds are doubles: [0.015 * 100] is [1.5] and rounds to 2,
    [0.575 * 100] is just under [57.5] and rounds to 57, on both
    interpreters. *)
Lemma speed_abs_doubles (py : python) :
  EncodedMotor._speed_abs py (decimal 15 1000) = Ok 2 /\
  EncodedMotor._speed_abs py (decimal 575 1000) = Ok 57 /\
  EncodedMotor._speed_abs py (decimal (-575) 1000) = Ok 198.
Proof. by destruct py; vm_compute. Qed.

(** ** EncodedMotor: the packets of timed and angled *)

(** With speeds it accepts, [_wrap_and_write] hands [_set_port_val] the
    movement type, the command, the speed bytes and the trailer. *)
Lemma wrap_and_write_run (py : python) (K : constants) (command : bytes)
    (speed_primary speed_secondary : float) (st : state) :
  valid_speed speed_primary ->
  (port st = PORT_AB K -> valid_speed speed_secondary) ->
  EncodedMotor._wrap_and_write py K command speed_primary speed_secondary st =
  Peripheral._set_port_val K
    (17 :: command ++
     speed_bytes py K (port st) speed_primary speed_secondary ++ [100; 127; 3]) st.
Proof.
  intros Hp Hs.
  unfold EncodedMotor._wrap_and_write, speed_bytes, mbind, M_bind, lift, gets, mret, M_ret.
  rewrite (speed_abs_ok py _ Hp), (int2byte_ok _ (speed_byte_is_byte py _ Hp)).
  destruct (Z.eqb_spec (port st) (PORT_AB K)) as [Hab|Hab].
  - rewrite (speed_abs_ok py _ (Hs Hab)),
      (int2byte_ok _ (speed_byte_is_byte py _ (Hs Hab))).
    unfold EncodedMotor.MOVEMENT_TYPE, EncodedMotor.TRAILER.
    by rewrite <- !app_assoc.
  - unfold EncodedMotor.MOVEMENT_TYPE, EncodedMotor.TRAILER.
    by rewrite <- !app_assoc.
Qed.

(** Off the combined port the secondary speed is never looked at. *)
Lemma wrap_and_write_single (py : python) (K : constants) (command : bytes)
    (speed_primary speed_secondary : float) (st : state) :
  port st <> PORT_AB K ->
  EncodedMotor._wrap_and_write py K command speed_primary speed_secondary st =
  (a ← lift (EncodedMotor._speed_abs py speed_primary);
   b ← lift (int2byte a);
   Peripheral._set_port_val K (17 :: command ++ b ++ [100; 127; 3])) st.
Proof.
  intros Hab.
  unfold EncodedMotor._wrap_and_write, mbind, M_bind, lift, gets, mret, M_ret.
  destruct (EncodedMotor._speed_abs py speed_primary) as [a|e]; [|reflexivity].
  destruct (int2byte a) as [b|e]; [|reflexivity].
  destruct (Z.eqb_spec (port st) (PORT_AB K)) as [|_]; [done|].
  unfold EncodedMotor.MOVEMENT_TYPE, EncodedMotor.TRAILER.
  by rewrite <- !app_assoc.
Qed.

Lemma pack_H_ok (n : Z) :
  0 <= n < 2 ^ 16 -> pack_H n = Ok [n mod 256; n / 256].
Proof.
  intros Hn. unfold pack_H.
  destruct (Z.leb_spec 0 n), (Z.ltb_spec n (2 ^ 16)); simpl; first [done | lia].
Qed.


Lemma unpack_pack_H (n : Z) : unpack_H (n mod 256) (n / 256) = n.
Proof. unfold unpack_H. pose proof (Z.div_mod n 256). lia. Qed.

(** [timed] with a duration that fits and speeds it accepts: one packet is
    written, then the call sleeps unless [async]. *)
Lemma timed_run (py : python) (K : constants) (seconds speed_primary : float)
    (speed_secondary : option float) (async : bool) (st : state) (msec : Z) :
  int (fmul seconds (of_int 1000)) = Ok msec ->
  0 <= msec < 2 ^ 16 ->
  valid_speed speed_primary ->
  (port st = PORT_AB K -> valid_speed (default speed_primary speed_secondary)) ->
  is_byte (PACKET_VER K) -> is_byte (MSG_SET_PORT_VAL K) -> is_byte (port st) ->
  EncodedMotor.timed py K seconds speed_primary speed_secondary async st =
  (if negb async then sleep py seconds else mret tt)
    (set_wire (wire st ++
       [(MOVE_HUB_HARDWARE_HANDLE K,
         packet K (MSG_SET_PORT_VAL K) (port st)
           (17 :: (if port st =? PORT_AB K then 10 else 9) ::
            msec mod 256 :: msec / 256 ::
            speed_bytes py K (port st) speed_primary
              (default speed_primary speed_secondary) ++ [100; 127; 3]))]) st).
Proof.
  intros Hint Hm Hp Hs Hv Ht Hport.
  unfold EncodedMotor.timed.
  unfold mbind, M_bind, gets at 1. cbn beta iota.
  unfold lift at 1. rewrite Hint.
  destruct (Z.leb_spec (2 ^ 16) msec) as [|_]; [lia|].
  unfold lift at 1. rewrite (pack_H_ok msec Hm).
  rewrite wrap_and_write_run by assumption.
  unfold Peripheral._set_port_val. rewrite write_to_hub_run.
  rewrite decide_True.
  - destruct (port st =? PORT_AB K); reflexivity.
  - repeat split; try assumption; try apply Hv; try apply Ht; try apply Hport.
    unfold speed_bytes, EncodedMotor.TIMED_GROUP, EncodedMotor.TIMED_SINGLE.
    destruct (port st =? PORT_AB K); simpl; lia.
Qed.

(** An exception of [_wrap_and_write] comes from a speed check or from an
    [int2byte], before the write: the state is as it was. *)
Lemma wrap_and_write_raise (py : python) (K : constants) (command : bytes)
    (speed_primary speed_secondary : float) (st st' : state) (e : exn) :
  EncodedMotor._wrap_and_write py K command speed_primary speed_secondary st =
    (Raise e, st') ->
  st' = st.
Proof.
  unfold EncodedMotor._wrap_and_write, Peripheral._set_port_val,
    mbind, M_bind, lift, gets, mret, M_ret.
  destruct (EncodedMotor._speed_abs py speed_primary); [|congruence].
  destruct (int2byte _); [|congruence].
  destruct (port st =? PORT_AB K).
  - destruct (EncodedMotor._speed_abs py speed_secondary); [|congruence].
    destruct (int2byte _); [|congruence].
    rewrite write_to_hub_run. case_decide; congruence.
  - rewrite write_to_hub_run. case_decide; congruence.
Qed.

Lemma sleep_nonneg (py : python) (secs : float) (st : state) :
  ge_frac secs 0 1 = true ->
  sleep py secs st = (Ok tt, set_slept (slept st ++ [secs]) st).
Proof.
  unfold sleep, ge_frac, lt_int.
  by destruct (compare_frac secs 0 1) as [[]|].
Qed.

(** ** EncodedMotor.timed on port A *)

Lemma half_is_valid_speed : valid_speed (decimal 1 2).
Proof. split; reflexivity. Qed.

(** C3, as the code has it: the motor on port A, asked to run for 0.5 s
    at speed 0.5 with [async] set, writes exactly one packet,
    [len, version, MSG_SET_PORT_VAL, PORT_A, 0x11, 0x09, 0xF4, 0x01, 0x32,
    0x64, 0x7F, 0x03] with [len = 12] the number of its bytes (the 500 ms
    are packed low byte first), and returns without sleeping. *)
Theorem timed_port_A_half_second (py : python) (K : constants) :
  is_byte (PACKET_VER K) -> is_byte (MSG_SET_PORT_VAL K) ->
  is_byte (PORT_A K) -> PORT_A K <> PORT_AB K ->
  let motor := Peripheral.__init__ (PORT_A K) in
  EncodedMotor.__init__ K (PORT_A K) = Ok motor /\
  EncodedMotor.timed py K (decimal 1 2) (decimal 1 2) None true motor =
    (Ok tt,
     set_wire [(MOVE_HUB_HARDWARE_HANDLE K,
                [12; PACKET_VER K; MSG_SET_PORT_VAL K; PORT_A K;
                 17; 9; 244; 1; 50; 100; 127; 3])] motor).
Proof.
  intros Hv Ht Hp Hab motor. split.
  - unfold EncodedMotor.__init__. by rewrite Z.eqb_refl.
  - rewrite (timed_run py K _ _ _ _ _ 500); try assumption.
    + subst motor. cbn [port Peripheral.__init__ negb wire app].
      unfold speed_bytes.
      destruct (Z.eqb_spec (PORT_A K) (PORT_AB K)) as [|_]; [done|].
      assert (speed_byte py (decimal 1 2) = 50) as -> by (by destruct py; vm_compute).
      reflexivity.
    + by vm_compute.
    + by vm_compute.
    + exact half_is_valid_speed.
    + intros Heq. by destruct Hab.
Qed.

Lemma timed_port_A_half_second_witness :
  EncodedMotor.timed Py2 move_hub (decimal 1 2) (decimal 1 2) None true
    (Peripheral.__init__ 55) =
    (Ok tt,
     set_wire [(14, [12; 1; 129; 55; 17; 9; 244; 1; 50; 100; 127; 3])]
       (Peripheral.__init__ 55)).
Proof.
  apply (proj2 (timed_port_A_half_second Py2 move_hub
                  ltac:(unfold is_byte; simpl; lia) ltac:(unfold is_byte; simpl; lia)
                  ltac:(unfold is_byte; simpl; lia) ltac:(simpl; lia))).
Defined.

(** The bytes the spec lists for that call, duration high byte first, are
    not the bytes written. *)
Lemma timed_port_A_spec_bytes_not_written :
  wire (snd (EncodedMotor.timed Py2 move_hub (decimal 1 2) (decimal 1 2) None true
               (Peripheral.__init__ 55))) <>
  [(14, [12; 1; 129; 55; 17; 9; 1; 244; 50; 100; 127; 3])].
Proof. vm_compute. discriminate. Qed.

(** ** EncodedMotor.timed: the duration *)

(** For [seconds] in [0, 65.535] the double product [seconds * 1000] is
    at most [65535], and so is its integer part. *)
Lemma int_millis_range (seconds : float) :
  valid_seconds seconds ->
  exists msec, int (fmul seconds (of_int 1000)) = Ok msec /\ 0 <= msec < 2 ^ 16.
Proof.
  intros [Hlo Hhi]. rewrite of_int_1000.
  destruct seconds as [s|s| |s m e].
  - exists 0. split; [reflexivity | lia].
  - destruct s; discriminate.
  - discriminate.
  - apply ge_frac_finite in Hlo. apply le_frac_finite in Hhi.
    pose proof (denominator_pos e) as Hd.
    assert (s = false) as -> by (apply (numerator_nonneg s m e); nia).
    unfold numerator, cond_Zopp in Hhi.
    destruct (int_small
                (fmul (S754_finite false m e) (S754_finite false 8796093022208000 (-43)))
                false 65535 ltac:(lia)) as (r & -> & Hr).
    + apply (fmul_upper false m _ e 43 1000 65535).
      1-5: first [lia | reflexivity].
      lia.
    + exists r. split; [reflexivity|]. change (2 ^ 16) with 65536. lia.
Qed.






(** An infinite [seconds] is refused by [int], with an [OverflowError]. *)
Lemma timed_infinite_seconds (py : python) (K : constants) (st : state) :
  EncodedMotor.timed py K (S754_infinity false) (of_int 1) None true st =
    (Raise OverflowError, st).
Proof. reflexivity. Qed.

(** C5, as the code has it: for every [seconds] in [0, 65.535] the
    two-byte little-endian duration field of the packet [timed] writes
    reads back as [int(seconds * 1000)], the integer part of the double
    product; and [seconds = 65.536] raises [ValueError]. *)
Theorem timed_duration_field (py : python) (K : constants)
    (seconds speed_primary : float) (speed_secondary : option float)
    (async : bool) (st : state) :
  valid_seconds seconds ->
  valid_speed speed_primary ->
  (port st = PORT_AB K -> valid_speed (default speed_primary speed_secondary)) ->
  is_byte (PACKET_VER K) -> is_byte (MSG_SET_PORT_VAL K) -> is_byte (port st) ->
  (exists st' pkt lo hi msec,
     EncodedMotor.timed py K seconds speed_primary speed_secondary async st =
       (Ok tt, st') /\
     wire st' = wire st ++ [(MOVE_HUB_HARDWARE_HANDLE K, pkt)] /\
     pkt !! 6%nat = Some lo /\ pkt !! 7%nat = Some hi /\
     is_byte lo /\ is_byte hi /\
     int (fmul seconds (of_int 1000)) = Ok msec /\
     unpack_H lo hi = msec) /\
  EncodedMotor.timed py K (decimal 65536 1000) speed_primary speed_secondary async st =
    (Raise ValueError, st).
Proof.
  intros Hs Hp Hss Hv Ht Hport. split.
  - destruct (int_millis_range seconds Hs) as (msec & Hint & Hm).
    rewrite (timed_run py K _ _ _ _ _ msec) by assumption.
    set (pkt := packet _ _ _ _).
    exists ((if negb async then set_slept (slept st ++ [seconds]) else id)
              (set_wire (wire st ++ [(MOVE_HUB_HARDWARE_HANDLE K, pkt)]) st)),
      pkt, (msec mod 256), (msec / 256), msec.
    split; [|split; [|split; [|split; [|split; [|split; [|split]]]]]].
    + destruct async; simpl; [reflexivity|].
      by rewrite sleep_nonneg by apply Hs.
    + by destruct async.
    + reflexivity.
    + reflexivity.
    + unfold is_byte. pose proof (Z.mod_pos_bound msec 256). lia.
    + unfold is_byte. split; [apply Z.div_pos | apply Z.div_lt_upper_bound]; lia.
    + exact Hint.
    + apply unpack_pack_H.
  - by vm_compute.
Qed.

Lemma timed_duration_field_witness :
  (exists st' pkt lo hi msec,
     EncodedMotor.timed Py3 move_hub (decimal 3 2) (decimal 1 4) None true
       (Peripheral.__init__ 57) = (Ok tt, st') /\
     wire st' = wire (Peripheral.__init__ 57) ++ [(14, pkt)] /\
     pkt !! 6%nat = Some lo /\ pkt !! 7%nat = Some hi /\
     is_byte lo /\ is_byte hi /\
     int (fmul (decimal 3 2) (of_int 1000)) = Ok msec /\
     unpack_H lo hi = msec) /\
  EncodedMotor.timed Py3 move_hub (decimal 65536 1000) (decimal 1 4) None true
    (Peripheral.__init__ 57) = (Raise ValueError, Peripheral.__init__ 57).
Proof.
  apply (timed_duration_field Py3 move_hub (decimal 3 2) (decimal 1 4) None true
           (Peripheral.__init__ 57)).
  - split; reflexivity.
  - split; reflexivity.
  - intros _. split; reflexivity.
  - unfold is_byte. simpl. lia.
  - unfold is_byte. simpl. lia.
  - unfold is_byte. simpl. lia.
Defined.

(** At 0.7 ms the duration field is 0 although the product rounds to 1,
    under either rounding. *)
Lemma timed_duration_not_rounded :
  valid_seconds (decimal 7 10000) /\
  EncodedMotor.timed Py2 move_hub (decimal 7 10000) (of_int 1) None true
    (Peripheral.__init__ 55) =
    (Ok tt,
     set_wire [(14, [12; 1; 129; 55; 17; 9; 0; 0; 100; 100; 127; 3])]
       (Peripheral.__init__ 55)) /\
  unpack_H 0 0 = 0 /\
  round Py2 (fmul (decimal 7 10000) (of_int 1000)) = Ok 1 /\
  round Py3 (fmul (decimal 7 10000) (of_int 1000)) = Ok 1.
Proof. split; [split; reflexivity | by vm_compute]. Qed.

(** The durations are doubles: [0.57 * 1000] is [570], [65.535 * 1000] is
    [65535] and [1.001 * 1000] is just under [1001]. *)
Lemma timed_millis_doubles :
  int (fmul (decimal 57 100) (of_int 1000)) = Ok 570 /\
  int (fmul (decimal 65535 1000) (of_int 1000)) = Ok 65535 /\
  int (fmul (decimal 1001 1000) (of_int 1000)) = Ok 1000.
Proof. by vm_compute. Qed.

(** ** EncodedMotor: single ports ignore the secondary speed *)

Lemma pack_I_length (n : Z) (b : bytes) : pack_I n = Ok b -> length b = 4%nat.
Proof. unfold pack_I. by destruct (_ && _); intros [= <-]. Qed.

Lemma pack_H_length (n : Z) (b : bytes) : pack_H n = Ok b -> length b = 2%nat.
Proof. unfold pack_H. by destruct (_ && _); intros [= <-]. Qed.

Lemma pack_I_ok (n : Z) :
  0 <= n < 2 ^ 32 ->
  pack_I n = Ok [n mod 256; n / 256 mod 256; n / 65536 mod 256; n / 16777216].
Proof.
  intros Hn. unfold pack_I.
  destruct (Z.leb_spec 0 n), (Z.ltb_spec n (2 ^ 32)); simpl; first [done | lia].
Qed.

(** What a single port sends: the payload holds the movement type, the
    subtype, the parameter, one speed byte and the trailer. *)
Lemma wrap_and_write_single_packet (py : python) (K : constants)
    (command : bytes) (speed_primary speed_secondary : float) (st st' : state) :
  port st <> PORT_AB K ->
  EncodedMotor._wrap_and_write py K command speed_primary speed_secondary st =
    (Ok tt, st') ->
  exists speed,
    EncodedMotor._speed_abs py speed_primary = Ok speed /\ is_byte speed /\
    st' = set_wire (wire st ++
            [(MOVE_HUB_HARDWARE_HANDLE K,
              packet K (MSG_SET_PORT_VAL K) (port st)
                (17 :: command ++ [speed] ++ [100; 127; 3]))]) st.
Proof.
  intros Hab. rewrite wrap_and_write_single by done.
  unfold mbind, M_bind, lift, Peripheral._set_port_val.
  destruct (EncodedMotor._speed_abs py speed_primary) as [a|]; [|discriminate].
  destruct (int2byte a) as [b|] eqn:Hb; [|discriminate].
  apply int2byte_inv in Hb as [Ha ->].
  rewrite write_to_hub_run. case_decide; [|discriminate].
  intros [= <-]. by exists a.
Qed.

(** The packet of [angled] with an angle that fits and speeds it
    accepts. *)
Lemma angled_run (py : python) (K : constants) (angle : Z)
    (speed_primary : float) (speed_secondary : option float) (st : state) :
  0 <= angle < 2 ^ 32 ->
  valid_speed speed_primary ->
  (port st = PORT_AB K -> valid_speed (default speed_primary speed_secondary)) ->
  is_byte (PACKET_VER K) -> is_byte (MSG_SET_PORT_VAL K) -> is_byte (port st) ->
  EncodedMotor.angled py K angle speed_primary speed_secondary st =
  (Ok tt,
   set_wire (wire st ++
     [(MOVE_HUB_HARDWARE_HANDLE K,
       packet K (MSG_SET_PORT_VAL K) (port st)
         (17 :: (if port st =? PORT_AB K then 12 else 11) ::
          angle mod 256 :: angle / 256 mod 256 :: angle / 65536 mod 256 ::
          angle / 16777216 ::
          speed_bytes py K (port st) speed_primary
            (default speed_primary speed_secondary) ++ [100; 127; 3]))]) st).
Proof.
  intros Ha Hp Hs Hv Ht Hport.
  unfold EncodedMotor.angled.
  unfold mbind, M_bind, gets at 1. cbn beta iota.
  unfold lift at 1. rewrite (pack_I_ok angle Ha).
  rewrite wrap_and_write_run by assumption.
  unfold Peripheral._set_port_val. rewrite write_to_hub_run.
  rewrite decide_True.
  - destruct (port st =? PORT_AB K); reflexivity.
  - repeat split; try assumption; try apply Hv; try apply Ht; try apply Hport.
    unfold speed_bytes, EncodedMotor.ANGLED_GROUP, EncodedMotor.ANGLED_SINGLE.
    destruct (port st =? PORT_AB K); simpl; lia.
Qed.

(** C10: on a port other than the combined port AB, [timed] and [angled]
    do the same whatever [speed_secondary] is, in range, out of range, not
    a number or left out: the same result and the same packet; the packet
    of a call that returns carries exactly one speed byte, the one of
    [speed_primary], between the parameter and the trailer; and a call
    with a duration in [0, 65.535] (an angle below [2^32]) and a primary
    speed in [-1, 1] does return, whatever [speed_secondary] is, having
    written that packet. *)
Theorem single_port_ignores_secondary (py : python) (K : constants)
    (st : state) (speed_primary : float) :
  port st <> PORT_AB K ->
  (forall seconds async s s',
     EncodedMotor.timed py K seconds speed_primary s async st =
     EncodedMotor.timed py K seconds speed_primary s' async st) /\
  (forall angle s s',
     EncodedMotor.angled py K angle speed_primary s st =
     EncodedMotor.angled py K angle speed_primary s' st) /\
  (forall seconds async s st',
     EncodedMotor.timed py K seconds speed_primary s async st = (Ok tt, st') ->
     exists param speed,
       length param = 2%nat /\
       EncodedMotor._speed_abs py speed_primary = Ok speed /\
       wire st' = wire st ++
         [(MOVE_HUB_HARDWARE_HANDLE K,
           packet K (MSG_SET_PORT_VAL K) (port st)
             ([17; 9] ++ param ++ [speed] ++ [100; 127; 3]))]) /\
  (forall angle s st',
     EncodedMotor.angled py K angle speed_primary s st = (Ok tt, st') ->
     exists param speed,
       length param = 4%nat /\
       EncodedMotor._speed_abs py speed_primary = Ok speed /\
       wire st' = wire st ++
         [(MOVE_HUB_HARDWARE_HANDLE K,
           packet K (MSG_SET_PORT_VAL K) (port st)
             ([17; 11] ++ param ++ [speed] ++ [100; 127; 3]))]) /\
  (is_byte (PACKET_VER K) -> is_byte (MSG_SET_PORT_VAL K) -> is_byte (port st) ->
   valid_speed speed_primary ->
   (forall seconds async s,
      valid_seconds seconds ->
      exists msec speed st',
        int (fmul seconds (of_int 1000)) = Ok msec /\
        EncodedMotor._speed_abs py speed_primary = Ok speed /\
        EncodedMotor.timed py K seconds speed_primary s async st = (Ok tt, st') /\
        wire st' = wire st ++
          [(MOVE_HUB_HARDWARE_HANDLE K,
            packet K (MSG_SET_PORT_VAL K) (port st)
              [17; 9; msec mod 256; msec / 256; speed; 100; 127; 3])]) /\
   (forall angle s,
      0 <= angle < 2 ^ 32 ->
      exists speed st',
        EncodedMotor._speed_abs py speed_primary = Ok speed /\
        EncodedMotor.angled py K angle speed_primary s st = (Ok tt, st') /\
        wire st' = wire st ++
          [(MOVE_HUB_HARDWARE_HANDLE K,
            packet K (MSG_SET_PORT_VAL K) (port st)
              [17; 11; angle mod 256; angle / 256 mod 256;
               angle / 65536 mod 256; angle / 16777216;
               speed; 100; 127; 3])])).
Proof.
  intros Hab. split; [|split; [|split; [|split]]].
  - intros seconds async s s'.
    unfold EncodedMotor.timed, mbind, M_bind, gets, lift.
    destruct (int _) as [msec|]; [|reflexivity].
    destruct (2 ^ 16 <=? _); [reflexivity|].
    destruct (pack_H _); [|reflexivity].
    by rewrite !(wrap_and_write_single py K _ speed_primary _ st Hab).
  - intros angle s s'.
    unfold EncodedMotor.angled, mbind, M_bind, gets, lift.
    destruct (pack_I _); [|reflexivity].
    by rewrite !(wrap_and_write_single py K _ speed_primary _ st Hab).
  - intros seconds async s st'.
    unfold EncodedMotor.timed, mbind, M_bind, gets, lift, raise.
    destruct (int _) as [msec|]; [|discriminate].
    destruct (2 ^ 16 <=? _); [discriminate|].
    destruct (pack_H _) as [param|] eqn:Hpack; [|discriminate].
    destruct (Z.eqb_spec (port st) (PORT_AB K)) as [|_]; [done|].
    destruct (EncodedMotor._wrap_and_write _ _ _ _ _ _) as [[[]|] st1] eqn:Hw;
      [|discriminate].
    apply wrap_and_write_single_packet in Hw as (speed & Hspeed & _ & ->); [|done].
    intros Hrest. exists param, speed.
    split; [by eapply pack_H_length|]. split; [done|].
    destruct async; simpl in Hrest.
    + by injection Hrest as <-.
    + unfold sleep in Hrest. destruct (lt_int seconds 0); [discriminate|].
      by injection Hrest as <-.
  - intros angle s st'.
    unfold EncodedMotor.angled, mbind, M_bind, gets, lift.
    destruct (pack_I _) as [param|] eqn:Hpack; [|discriminate].
    destruct (Z.eqb_spec (port st) (PORT_AB K)) as [|_]; [done|].
    intros Hw.
    apply wrap_and_write_single_packet in Hw as (speed & Hspeed & _ & ->); [|done].
    exists param, speed. split; [by eapply pack_I_length|]. by split.
  - intros Hv Ht Hport Hp. split.
    + intros seconds async s Hs.
      destruct (int_millis_range seconds Hs) as (msec & Hint & Hm).
      exists msec, (speed_byte py speed_primary).
      rewrite (timed_run py K _ _ _ _ _ msec) by (done || by intros ?).
      unfold speed_bytes.
      destruct (Z.eqb_spec (port st) (PORT_AB K)) as [|_]; [done|].
      destruct async; cbn [negb].
      * eexists. split; [exact Hint|]. split; [by apply speed_abs_ok|].
        split; reflexivity.
      * rewrite sleep_nonneg by apply Hs.
        eexists. split; [exact Hint|]. split; [by apply speed_abs_ok|].
        split; reflexivity.
    + intros angle s Ha.
      exists (speed_byte py speed_primary).
      rewrite angled_run by (done || by intros ?).
      unfold speed_bytes.
      destruct (Z.eqb_spec (port st) (PORT_AB K)) as [|_]; [done|].
      eexists. split; [by apply speed_abs_ok|]. split; reflexivity.
Qed.

Lemma single_port_ignores_secondary_witness :
  exists msec speed st',
    int (fmul (of_int 2) (of_int 1000)) = Ok msec /\
    EncodedMotor._speed_abs Py2 (decimal 1 2) = Ok speed /\
    EncodedMotor.timed Py2 move_hub (of_int 2) (decimal 1 2) (Some (of_int 5)) false
      (Peripheral.__init__ 1) = (Ok tt, st') /\
    wire st' = wire (Peripheral.__init__ 1) ++
      [(14, packet move_hub 129 1
              [17; 9; msec mod 256; msec / 256; speed; 100; 127; 3])].
Proof.
  refine (proj1 (proj2 (proj2 (proj2 (proj2
            (single_port_ignores_secondary Py2 move_hub (Peripheral.__init__ 1)
               (decimal 1 2) _))))
            _ _ _ _) (of_int 2) false (Some (of_int 5)) _).
  - simpl. lia.
  - unfold is_byte. simpl. lia.
  - unfold is_byte. simpl. lia.
  - unfold is_byte. simpl. lia.
  - split; reflexivity.
  - split; reflexivity.
Defined.

(** An out-of-range secondary speed on port C, and one that is not a
    number: the call returns. *)
Example timed_port_C_secondary_out_of_range :
  gt_int (of_int 5) 1 = true /\
  EncodedMotor.timed Py2 move_hub (of_int 2) (decimal 1 2) (Some (of_int 5)) true
    (Peripheral.__init__ 1) =
    (Ok tt,
     set_wire [(14, [12; 1; 129; 1; 17; 9; 208; 7; 50; 100; 127; 3])]
       (Peripheral.__init__ 1)) /\
  EncodedMotor.timed Py2 move_hub (of_int 2) (decimal 1 2) (Some S754_nan) true
    (Peripheral.__init__ 1) =
    (Ok tt,
     set_wire [(14, [12; 1; 129; 1; 17; 9; 208; 7; 50; 100; 127; 3])]
       (Peripheral.__init__ 1)).
Proof. by vm_compute. Qed.

(** ** The speed byte read back *)

(** C9, at the speed -0.496: the code encodes it as 205 (-50 + 255), whose
    signed reading is -51, so the speed read back is -0.51, further than
    1/100 from the speed given. *)
Theorem speed_read_back_off_by_one (py : python) :
  valid_speed (decimal (-496) 1000) /\
  EncodedMotor._speed_abs py (decimal (-496) 1000) = Ok 205 /\
  (decodeSpeed 205 == -51 # 100)%Q /\
  (1 # 100 < value (decimal (-496) 1000) - decodeSpeed 205)%Q.
Proof.
  split; [split; reflexivity|]. split; [by destruct py; vm_compute|].
  split; by vm_compute.
Qed.

(** ** Peripheral._notify_subscribers *)












(** Two subscribers, of which the one the iteration reaches first
    unsubscribes itself and returns: the loop raises and the other one is
    never called. *)
Lemma notify_subscribers_unsubscribing :
  let st := set_mode 2 (set_subscribers {[1%positive; 2%positive]}
                          (Peripheral.__init__ 58)) in
  let subscriber := fun (cb : callback) (_ : list Z) =>
    if (cb =? 2)%positive then TiltSensor.unsubscribe move_hub 2%positive
    else mret tt in
  Peripheral._notify_subscribers subscriber [200] st =
    (Raise RuntimeError,
     set_calls [(2%positive, [200])] (set_subscribers {[1%positive]} st)).
Proof. by vm_compute. Qed.

(** ** TiltSensor *)

(** [_switch_mode] stores the mode, then sends the subscription packet. *)
Lemma switch_mode_run (K : constants) (m : Z) (st : state) :
  is_byte (PACKET_VER K) -> is_byte (MSG_SENSOR_SUBSCRIBE K) ->
  is_byte (port st) -> is_byte m ->
  TiltSensor._switch_mode K m st =
    (Ok tt,
     set_wire (wire st ++
       [(MOVE_HUB_HARDWARE_HANDLE K,
         packet K (MSG_SENSOR_SUBSCRIBE K) (port st) [m; 1; 0; 0; 0; 1])])
       (set_mode m st)).
Proof.
  intros Hv Ht Hp Hm.
  unfold TiltSensor._switch_mode, Peripheral._subscribe_on_port,
    mbind, M_bind, modify, lift.
  rewrite (int2byte_ok m Hm), write_to_hub_run.
  rewrite decide_True; [reflexivity|].
  split; [exact Hv|]. split; [exact Ht|]. split; [exact Hp|]. simpl. lia.
Qed.




(** C8: [unsubscribe] of a callback that is not registered raises
    [KeyError] and changes nothing; of a registered one it removes that
    callback and no other, and it switches the mode to OFF and writes the
    mode-switch packet exactly when no subscriber is left; a tilt sensor
    just constructed is in mode OFF. *)
Theorem unsubscribe_spec (K : constants) (cb : callback) (st : state) :
  byte_constants K -> is_byte (port st) ->
  (cb ∉ _subscribers st ->
   TiltSensor.unsubscribe K cb st = (Raise KeyError, st)) /\
  (cb ∈ _subscribers st ->
   exists st',
     TiltSensor.unsubscribe K cb st = (Ok tt, st') /\
     _subscribers st' = _subscribers st ∖ {[cb]} /\
     (_subscribers st' = ∅ ->
      mode st' = TILT_SENSOR_MODE_OFF K /\
      wire st' = wire st ++
        [(MOVE_HUB_HARDWARE_HANDLE K,
          packet K (MSG_SENSOR_SUBSCRIBE K) (port st)
            [TILT_SENSOR_MODE_OFF K; 1; 0; 0; 0; 1])]) /\
     (_subscribers st' <> ∅ -> mode st' = mode st /\ wire st' = wire st)) /\
  (forall p,
     mode (TiltSensor.__init__ K p) = TILT_SENSOR_MODE_OFF K /\
     _subscribers (TiltSensor.__init__ K p) = ∅).
Proof.
  intros (Hv & _ & Ht & Hoff) Hp. split; [|split].
  - intros Hnot. unfold TiltSensor.unsubscribe, mbind, M_bind, gets, raise.
    by rewrite decide_False.
  - intros Hin. unfold TiltSensor.unsubscribe, mbind, M_bind, gets, modify.
    rewrite decide_True by done. cbn beta iota.
    change (_subscribers (set_subscribers ?s _)) with s.
    destruct (decide (_subscribers st ∖ {[cb]} = ∅)) as [Hempty|Hsome].
    + rewrite switch_mode_run by done. eexists. split; [reflexivity|].
      simpl. split; [reflexivity|]. split; [done|]. by intros [].
    + eexists. split; [reflexivity|]. simpl.
      split; [reflexivity|]. split; [by intros ?|done].
  - done.
Qed.

Lemma unsubscribe_spec_witness :
  let st := set_mode 2 (set_subscribers {[1%positive]} (Peripheral.__init__ 58)) in
  (2%positive ∉ _subscribers st ->
   TiltSensor.unsubscribe move_hub 2%positive st = (Raise KeyError, st)) /\
  (2%positive ∈ _subscribers st ->
   exists st',
     TiltSensor.unsubscribe move_hub 2%positive st = (Ok tt, st') /\
     _subscribers st' = _subscribers st ∖ {[2%positive]} /\
     (_subscribers st' = ∅ ->
      mode st' = 0 /\
      wire st' = wire st ++ [(14, packet move_hub 65 58 [0; 1; 0; 0; 0; 1])]) /\
     (_subscribers st' <> ∅ -> mode st' = mode st /\ wire st' = wire st)) /\
  (forall p,
     mode (TiltSensor.__init__ move_hub p) = 0 /\
     _subscribers (TiltSensor.__init__ move_hub p) = ∅).
Proof.
  intros st. apply (unsubscribe_spec move_hub 2%positive st).
  - unfold byte_constants, is_byte. simpl. lia.
  - unfold is_byte. simpl. lia.
Defined.


(** * More of the code *)

(** ** Peripheral._write_to_hub: what it refuses *)

(** X1: when the version, the message type or the port is not a byte
    value, or the payload has more than 251 bytes, [_write_to_hub] raises
    a [ValueError], the one of [int2byte], and nothing is written. *)
Theorem write_to_hub_refusal (K : constants) (msg_type : Z) (params : bytes)
    (st : state) :
  ~ (is_byte (PACKET_VER K) /\ is_byte msg_type /\ is_byte (port st) /\
     (length params <= 251)%nat) ->
  Peripheral._write_to_hub K msg_type params st = (Raise ValueError, st).
Proof.
  intros Hn. rewrite write_to_hub_run. case_decide as Hfit; [|reflexivity].
  exfalso. apply Hn. intuition lia.
Qed.

Lemma write_to_hub_refusal_witness :
  Peripheral._write_to_hub move_hub 300 [17; 81; 0; 5] (Peripheral.__init__ 50) =
    (Raise ValueError, Peripheral.__init__ 50).
Proof.
  apply (write_to_hub_refusal move_hub 300 [17; 81; 0; 5] (Peripheral.__init__ 50)).
  unfold is_byte. simpl. lia.
Defined.

Lemma packet_wellformed (K : constants) (msg_type port : Z) (payload : bytes) :
  is_byte (PACKET_VER K) -> is_byte msg_type -> is_byte port ->
  4 + Z.of_nat (length payload) < 256 -> Forall is_byte payload ->
  wellformed_packet (packet K msg_type port payload).
Proof.
  intros Hv Ht Hp Hlen Hpay. split.
  - unfold packet. apply Forall_cons. split; [unfold is_byte; lia|].
    by repeat (apply Forall_cons; split; [done|]).
  - unfold packet. cbn. f_equal. lia.
Qed.

(** A write of byte values puts a well-formed packet on the wire. *)
Lemma write_to_hub_ok_inv (K : constants) (msg_type : Z) (params : bytes)
    (st st' : state) :
  Forall is_byte params ->
  Peripheral._write_to_hub K msg_type params st = (Ok tt, st') ->
  st' = set_wire (wire st ++
          [(MOVE_HUB_HARDWARE_HANDLE K, packet K msg_type (port st) params)]) st /\
  wellformed_packet (packet K msg_type (port st) params).
Proof.
  intros Hpar. rewrite write_to_hub_run.
  case_decide as Hfit; [|discriminate]. intros [= <-].
  split; [reflexivity|]. destruct Hfit as (? & ? & ? & ?).
  by apply packet_wellformed.
Qed.

(** ** EncodedMotor: what a call can do *)

(** Goals [Forall is_byte l] on lists built from known bytes. *)
Ltac forall_bytes :=
  repeat first
    [ apply Forall_nil
    | apply Forall_cons; split
    | apply Forall_app; split ];
  try done; try (unfold is_byte; lia).

(** A [_wrap_and_write] that returns has written one packet: movement
    type, command, one speed byte (two on the combined port), trailer. *)
Lemma wrap_and_write_ok_inv (py : python) (K : constants) (command : bytes)
    (speed_primary speed_secondary : float) (st st' : state) :
  EncodedMotor._wrap_and_write py K command speed_primary speed_secondary st =
    (Ok tt, st') ->
  exists speeds,
    Forall is_byte speeds /\
    length speeds = (if port st =? PORT_AB K then 2%nat else 1%nat) /\
    (Forall is_byte command ->
     wellformed_packet (packet K (MSG_SET_PORT_VAL K) (port st)
                          (17 :: command ++ speeds ++ [100; 127; 3]))) /\
    st' = set_wire (wire st ++
            [(MOVE_HUB_HARDWARE_HANDLE K,
              packet K (MSG_SET_PORT_VAL K) (port st)
                (17 :: command ++ speeds ++ [100; 127; 3]))]) st.
Proof.
  unfold EncodedMotor._wrap_and_write, Peripheral._set_port_val,
    mbind, M_bind, lift, gets, mret, M_ret,
    EncodedMotor.MOVEMENT_TYPE, EncodedMotor.TRAILER.
  destruct (EncodedMotor._speed_abs py speed_primary) as [a|]; [|discriminate].
  destruct (int2byte a) as [b|] eqn:Hb; [|discriminate].
  apply int2byte_inv in Hb as [Ha ->].
  destruct (port st =? PORT_AB K).
  - destruct (EncodedMotor._speed_abs py speed_secondary) as [a'|]; [|discriminate].
    destruct (int2byte a') as [b'|] eqn:Hb'; [|discriminate].
    apply int2byte_inv in Hb' as [Ha' ->].
    assert (((([17] ++ command) ++ [a]) ++ [a']) ++ [100; 127; 3] =
            17 :: command ++ [a; a'] ++ [100; 127; 3]) as ->
      by (cbn; by rewrite <- !app_assoc).
    intros Hw. exists [a; a']. split; [forall_bytes|]. split; [reflexivity|].
    split.
    + intros Hc. eapply write_to_hub_ok_inv; [|exact Hw]. forall_bytes.
    + rewrite write_to_hub_run in Hw. case_decide; [|discriminate].
      by injection Hw as <-.
  - assert ((([17] ++ command) ++ [a]) ++ [100; 127; 3] =
            17 :: command ++ [a] ++ [100; 127; 3]) as ->
      by (cbn; by rewrite <- !app_assoc).
    intros Hw. exists [a]. split; [forall_bytes|]. split; [reflexivity|].
    split.
    + intros Hc. eapply write_to_hub_ok_inv; [|exact Hw]. forall_bytes.
    + rewrite write_to_hub_run in Hw. case_decide; [|discriminate].
      by injection Hw as <-.
Qed.

Lemma pack_H_bytes (n : Z) (b : bytes) :
  pack_H n = Ok b -> Forall is_byte b /\ length b = 2%nat.
Proof.
  unfold pack_H. destruct (Z.leb_spec 0 n), (Z.ltb_spec n (2 ^ 16));
    simpl; try discriminate.
  intros [= <-]. split; [|reflexivity].
  apply Forall_cons. split.
  { unfold is_byte. pose proof (Z.mod_pos_bound n 256). lia. }
  apply Forall_cons. split; [|by apply Forall_nil].
  unfold is_byte. split; [apply Z.div_pos | apply Z.div_lt_upper_bound]; lia.
Qed.

Lemma pack_I_err (n : Z) : ~ 0 <= n < 2 ^ 32 -> pack_I n = Raise StructError.
Proof.
  intros Hn. unfold pack_I.
  destruct (Z.leb_spec 0 n), (Z.ltb_spec n (2 ^ 32)); simpl; first [done | lia].
Qed.

Lemma pack_I_bytes (n : Z) (b : bytes) :
  pack_I n = Ok b -> Forall is_byte b /\ length b = 4%nat.
Proof.
  unfold pack_I. destruct (Z.leb_spec 0 n), (Z.ltb_spec n (2 ^ 32));
    simpl; try discriminate.
  intros [= <-]. split; [|reflexivity].
  apply Forall_cons. split.
  { unfold is_byte. pose proof (Z.mod_pos_bound n 256). lia. }
  apply Forall_cons. split.
  { unfold is_byte. pose proof (Z.mod_pos_bound (n / 256) 256). lia. }
  apply Forall_cons. split.
  { unfold is_byte. pose proof (Z.mod_pos_bound (n / 65536) 256). lia. }
  apply Forall_cons. split; [|by apply Forall_nil].
  unfold is_byte. split; [apply Z.div_pos | apply Z.div_lt_upper_bound]; lia.
Qed.

Lemma unpack_pack_I (n : Z) :
  unpack_I (n mod 256) (n / 256 mod 256) (n / 65536 mod 256) (n / 16777216) = n.
Proof.
  unfold unpack_I.
  assert (n / 65536 = n / 256 / 256) as E1
    by (rewrite Z.div_div by lia; reflexivity).
  assert (n / 16777216 = n / 256 / 256 / 256) as E2
    by (rewrite !Z.div_div by lia; reflexivity).
  rewrite E1, E2.
  pose proof (Z.div_mod n 256 ltac:(lia)).
  pose proof (Z.div_mod (n / 256) 256 ltac:(lia)).
  pose proof (Z.div_mod (n / 256 / 256) 256 ltac:(lia)).
  lia.
Qed.

(** The outcomes of [timed], with the payload of the packet written: an
    exception before the write leaves the state as it was. *)
Lemma timed_cases (py : python) (K : constants) (seconds speed_primary : float)
    (speed_secondary : option float) (async : bool) (st st' : state)
    (r : result unit) :
  EncodedMotor.timed py K seconds speed_primary speed_secondary async st =
    (r, st') ->
  (exists e, r = Raise e /\ st' = st) \/
  (exists payload,
     wellformed_packet (packet K (MSG_SET_PORT_VAL K) (port st) payload) /\
     length payload = (if port st =? PORT_AB K then 9%nat else 8%nat) /\
     let sent := set_wire (wire st ++
                   [(MOVE_HUB_HARDWARE_HANDLE K,
                     packet K (MSG_SET_PORT_VAL K) (port st) payload)]) st in
     st' = sent \/ st' = set_slept (slept st ++ [seconds]) sent).
Proof.
  unfold EncodedMotor.timed, mbind, M_bind, gets, lift, raise.
  destruct (int _) as [msec|e].
  2:{ intros [= <- <-]. left. eauto. }
  destruct (2 ^ 16 <=? msec).
  { intros [= <- <-]. left. eauto. }
  destruct (pack_H _) as [packed|e] eqn:Hpack.
  2:{ intros [= <- <-]. left. eauto. }
  apply pack_H_bytes in Hpack as [Hbytes Hlen].
  destruct (EncodedMotor._wrap_and_write _ _ _ _ _ _) as [[[]|e] st1] eqn:Hw.
  2:{ intros [= <- <-]. left. exists e.
      apply wrap_and_write_raise in Hw. eauto. }
  apply wrap_and_write_ok_inv in Hw as (speeds & Hsp & Hls & Hwf & ->).
  intros Hrest. right. eexists. split.
  { apply Hwf. destruct (port st =? PORT_AB K); forall_bytes. }
  split.
  { cbn [length]. rewrite !length_app, Hlen, Hls.
    by destruct (port st =? PORT_AB K). }
  destruct async; simpl in Hrest.
  - left. by injection Hrest as <- <-.
  - unfold sleep, raise, modify in Hrest. destruct (lt_int seconds 0).
    + left. by injection Hrest as <- <-.
    + right. by injection Hrest as <- <-.
Qed.

(** The outcomes of [angled], with the payload of the packet written. *)
Lemma angled_cases (py : python) (K : constants) (angle : Z)
    (speed_primary : float) (speed_secondary : option float) (st st' : state)
    (r : result unit) :
  EncodedMotor.angled py K angle speed_primary speed_secondary st = (r, st') ->
  (exists e, r = Raise e /\ st' = st) \/
  (exists payload,
     wellformed_packet (packet K (MSG_SET_PORT_VAL K) (port st) payload) /\
     length payload = (if port st =? PORT_AB K then 11%nat else 10%nat) /\
     r = Ok tt /\
     st' = set_wire (wire st ++
             [(MOVE_HUB_HARDWARE_HANDLE K,
               packet K (MSG_SET_PORT_VAL K) (port st) payload)]) st).
Proof.
  unfold EncodedMotor.angled, mbind, M_bind, gets, lift.
  destruct (pack_I _) as [packed|e] eqn:Hpack.
  2:{ intros [= <- <-]. left. eauto. }
  apply pack_I_bytes in Hpack as [Hbytes Hlen].
  destruct (EncodedMotor._wrap_and_write _ _ _ _ _ _) as [[[]|e] st1] eqn:Hw.
  2:{ intros [= <- <-]. left. exists e.
      apply wrap_and_write_raise in Hw. eauto. }
  apply wrap_and_write_ok_inv in Hw as (speeds & Hsp & Hls & Hwf & ->).
  intros [= <- <-]. right. eexists. split.
  { apply Hwf. destruct (port st =? PORT_AB K); forall_bytes. }
  split; [|done].
  cbn [length]. rewrite !length_app, Hlen, Hls.
  by destruct (port st =? PORT_AB K).
Qed.

(** X3: on the combined port AB, with a duration that fits and a primary
    speed it accepts, [timed] sends the subtype 0x0A and two speed bytes,
    the primary one first and the secondary one after it (the primary one
    again when [speed_secondary] is left out); a secondary speed that is
    not in [-1, 1] raises [ValueError] and nothing is written. *)
Theorem timed_combined_port (py : python) (K : constants)
    (seconds speed_primary : float) (speed_secondary : option float)
    (async : bool) (st : state) (msec : Z) :
  let secondary := default speed_primary speed_secondary in
  port st = PORT_AB K ->
  int (fmul seconds (of_int 1000)) = Ok msec -> 0 <= msec < 2 ^ 16 ->
  valid_speed speed_primary ->
  is_byte (PACKET_VER K) -> is_byte (MSG_SET_PORT_VAL K) ->
  is_byte (PORT_AB K) ->
  (valid_speed secondary ->
   EncodedMotor.timed py K seconds speed_primary speed_secondary async st =
   (if negb async then sleep py seconds else mret tt)
     (set_wire (wire st ++
        [(MOVE_HUB_HARDWARE_HANDLE K,
          [13; PACKET_VER K; MSG_SET_PORT_VAL K; PORT_AB K; 17; 10;
           msec mod 256; msec / 256;
           speed_byte py speed_primary; speed_byte py secondary;
           100; 127; 3])]) st)) /\
  (~ valid_speed secondary ->
   EncodedMotor.timed py K seconds speed_primary speed_secondary async st =
   (Raise ValueError, st)).
Proof.
  intros secondary Hab Hint Hm Hp Hv Ht Hport. split.
  - intros Hs. rewrite (timed_run py K _ _ _ _ _ msec); try done; [|by rewrite Hab].
    fold secondary. unfold speed_bytes, packet.
    rewrite Hab, Z.eqb_refl. reflexivity.
  - intros Hs.
    unfold EncodedMotor.timed, mbind, M_bind, gets, lift. rewrite Hint.
    destruct (Z.leb_spec (2 ^ 16) msec); [lia|].
    rewrite (pack_H_ok msec Hm).
    unfold EncodedMotor._wrap_and_write, mbind, M_bind, gets, lift.
    rewrite (speed_abs_ok py _ Hp), (int2byte_ok _ (speed_byte_is_byte py _ Hp)).
    rewrite Hab, Z.eqb_refl. fold secondary.
    destruct (speed_cases secondary) as [Hvs|Hout]; [done|].
    by rewrite (speed_abs_err py _ Hout).
Qed.

Lemma timed_combined_port_witness :
  EncodedMotor.timed Py3 move_hub (of_int 2) (decimal 1 2) (Some (decimal (-1) 4)) true
    (Peripheral.__init__ 57) =
  (Ok tt,
   set_wire (wire (Peripheral.__init__ 57) ++
     [(14, [13; 1; 129; 57; 17; 10; 2000 mod 256; 2000 / 256;
            speed_byte Py3 (decimal 1 2); speed_byte Py3 (decimal (-1) 4);
            100; 127; 3])]) (Peripheral.__init__ 57)).
Proof.
  refine (proj1 (timed_combined_port Py3 move_hub (of_int 2) (decimal 1 2)
                   (Some (decimal (-1) 4)) true (Peripheral.__init__ 57) 2000
                   _ _ _ _ _ _ _) _).
  - reflexivity.
  - reflexivity.
  - lia.
  - split; reflexivity.
  - unfold is_byte. simpl. lia.
  - unfold is_byte. simpl. lia.
  - unfold is_byte. simpl. lia.
  - split; reflexivity.
Defined.

(** ** EncodedMotor.angled *)

(** X4: with speeds it accepts and byte values in the header, [angled]
    given an angle in [0, 2^32) writes one packet and returns without
    sleeping: subtype 0x0B (0x0C on the combined port), then four bytes
    that read back, low byte first, as the angle, then the speed bytes and
    the trailer. Any other angle raises [struct.error] and nothing is
    written. *)
Theorem angled_spec (py : python) (K : constants) (angle : Z)
    (speed_primary : float) (speed_secondary : option float) (st : state) :
  valid_speed speed_primary ->
  (port st = PORT_AB K -> valid_speed (default speed_primary speed_secondary)) ->
  is_byte (PACKET_VER K) -> is_byte (MSG_SET_PORT_VAL K) -> is_byte (port st) ->
  (0 <= angle < 2 ^ 32 ->
   exists b0 b1 b2 b3 speeds,
     EncodedMotor.angled py K angle speed_primary speed_secondary st =
     (Ok tt,
      set_wire (wire st ++
        [(MOVE_HUB_HARDWARE_HANDLE K,
          packet K (MSG_SET_PORT_VAL K) (port st)
            (17 :: (if port st =? PORT_AB K then 12 else 11) ::
             b0 :: b1 :: b2 :: b3 :: speeds ++ [100; 127; 3]))]) st) /\
     Forall is_byte [b0; b1; b2; b3] /\
     unpack_I b0 b1 b2 b3 = angle /\
     EncodedMotor._speed_abs py speed_primary = Ok (speed_byte py speed_primary) /\
     (port st <> PORT_AB K -> speeds = [speed_byte py speed_primary]) /\
     (port st = PORT_AB K ->
      EncodedMotor._speed_abs py (default speed_primary speed_secondary) =
        Ok (speed_byte py (default speed_primary speed_secondary)) /\
      speeds = [speed_byte py speed_primary;
                speed_byte py (default speed_primary speed_secondary)])) /\
  (~ 0 <= angle < 2 ^ 32 ->
   EncodedMotor.angled py K angle speed_primary speed_secondary st =
   (Raise StructError, st)).
Proof.
  intros Hp Hs Hv Ht Hport. split.
  - intros Ha.
    exists (angle mod 256), (angle / 256 mod 256), (angle / 65536 mod 256),
      (angle / 16777216),
      (speed_bytes py K (port st) speed_primary
         (default speed_primary speed_secondary)).
    split; [|split; [|split; [|split; [|split]]]].
    + by apply angled_run.
    + by apply (pack_I_bytes angle), pack_I_ok.
    + apply unpack_pack_I.
    + by apply speed_abs_ok.
    + intros Hab. unfold speed_bytes.
      by destruct (Z.eqb_spec (port st) (PORT_AB K)).
    + intros Hab. split; [by apply speed_abs_ok, Hs|].
      unfold speed_bytes. by destruct (Z.eqb_spec (port st) (PORT_AB K)).
  - intros Ha. unfold EncodedMotor.angled, mbind, M_bind, gets, lift.
    by rewrite (pack_I_err angle Ha).
Qed.

Lemma angled_spec_witness :
  exists b0 b1 b2 b3 speeds,
    EncodedMotor.angled Py2 move_hub 720 (of_int (-1)) None (Peripheral.__init__ 2) =
    (Ok tt,
     set_wire (wire (Peripheral.__init__ 2) ++
       [(14,
         packet move_hub 129 2
           (17 :: (if 2 =? 57 then 12 else 11) :: b0 :: b1 :: b2 :: b3 ::
            speeds ++ [100; 127; 3]))])
       (Peripheral.__init__ 2)) /\
    Forall is_byte [b0; b1; b2; b3] /\
    unpack_I b0 b1 b2 b3 = 720 /\
    EncodedMotor._speed_abs Py2 (of_int (-1)) = Ok (speed_byte Py2 (of_int (-1))) /\
    (2 <> 57 -> speeds = [speed_byte Py2 (of_int (-1))]) /\
    (2 = 57 ->
     EncodedMotor._speed_abs Py2 (of_int (-1)) = Ok (speed_byte Py2 (of_int (-1))) /\
     speeds = [speed_byte Py2 (of_int (-1)); speed_byte Py2 (of_int (-1))]).
Proof.
  refine (proj1 (angled_spec Py2 move_hub 720 (of_int (-1)) None
                   (Peripheral.__init__ 2) _ _ _ _ _) _).
  - split; reflexivity.
  - simpl. lia.
  - unfold is_byte. simpl. lia.
  - unfold is_byte. simpl. lia.
  - unfold is_byte. simpl. lia.
  - lia.
Defined.

(** ** Sequences of motor calls *)

Lemma set_slept_set_wire_id (st : state) :
  set_slept (slept st) (set_wire (wire st ++ []) st) = st.
Proof. rewrite app_nil_r. by destruct st. Qed.

(** One call on a motor leaves everything but the wire and the sleep log
    alone, and puts at most one packet on the wire. *)
Lemma motor_step_effect (py : python) (K : constants) (c : motor_call)
    (st : state) :
  exists sent sl,
    snd (motor_step py K c st) = set_slept sl (set_wire (wire st ++ sent) st) /\
    (sent = [] \/
     exists payload,
       sent = [(MOVE_HUB_HARDWARE_HANDLE K,
                packet K (MSG_SET_PORT_VAL K) (port st) payload)] /\
       wellformed_packet (packet K (MSG_SET_PORT_VAL K) (port st) payload) /\
       (8 <= length payload <= 11)%nat).
Proof.
  destruct c as [seconds sp ss async|angle sp ss]; simpl.
  - destruct (EncodedMotor.timed py K seconds sp ss async st) as [r st'] eqn:Hrun.
    apply timed_cases in Hrun
      as [(e & _ & ->)|(payload & Hwf & Hlen & Hrest)]; simpl.
    + exists [], (slept st). split; [by rewrite set_slept_set_wire_id | by left].
    + assert (8 <= length payload <= 11)%nat as Hl
        by (rewrite Hlen; destruct (port st =? PORT_AB K); lia).
      destruct Hrest as [->| ->];
        eexists _, _; (split; [|right; eexists; split; [reflexivity|done]]);
        reflexivity.
  - destruct (EncodedMotor.angled py K angle sp ss st) as [r st'] eqn:Hrun.
    apply angled_cases in Hrun
      as [(e & _ & ->)|(payload & Hwf & Hlen & _ & ->)]; simpl.
    + exists [], (slept st). split; [by rewrite set_slept_set_wire_id | by left].
    + assert (8 <= length payload <= 11)%nat as Hl
        by (rewrite Hlen; destruct (port st =? PORT_AB K); lia).
      eexists _, (slept st).
      split; [|right; eexists; split; [reflexivity|done]]. reflexivity.
Qed.

(** X5: whatever calls of [timed] and [angled] a caller makes on a motor,
    and whichever of them raise, the port, the subscribers and the
    [working] flag stay as they were and the wire only grows: by at most
    one packet per call, each sent to the hub's handle, starting with its
    own length (12 to 15), made of byte values only, and carrying
    [MSG_SET_PORT_VAL] and the motor's port in its header. *)
Theorem motor_calls_wire (py : python) (K : constants) (cs : list motor_call)
    (st : state) :
  let st' := after_calls (motor_step py K) cs st in
  port st' = port st /\ _subscribers st' = _subscribers st /\
  working st' = working st /\ calls st' = calls st /\
  exists sent,
    wire st' = wire st ++ sent /\ (length sent <= length cs)%nat /\
    Forall (fun w : Z * bytes =>
              w.1 = MOVE_HUB_HARDWARE_HANDLE K /\ wellformed_packet w.2 /\
              (12 <= length w.2 <= 15)%nat /\
              w.2 !! 2%nat = Some (MSG_SET_PORT_VAL K) /\
              w.2 !! 3%nat = Some (port st)) sent.
Proof.
  revert st. induction cs as [|c cs IH]; intros st; simpl.
  - repeat split. exists []. by rewrite app_nil_r.
  - destruct (motor_step_effect py K c st) as (sent1 & sl & -> & Hsent1).
    specialize (IH (set_slept sl (set_wire (wire st ++ sent1) st))).
    simpl in IH. destruct IH as (-> & -> & -> & -> & sent & -> & Hlen & Hall).
    repeat split. exists (sent1 ++ sent). split; [by rewrite app_assoc|].
    destruct Hsent1 as [->|(payload & -> & Hwf & Hl)]; simpl.
    + split; [lia | done].
    + split; [lia|]. apply Forall_cons. split; [|done]. simpl.
      repeat split; try apply Hwf; lia.
Qed.

(** ** TiltSensor: notifications *)

(** X7: a buffer that is too short. In the three subscribed modes a buffer
    of at most four bytes raises [IndexError]; so does a buffer of exactly
    five bytes in FULL mode, where the second reading is missing. In both
    cases no subscriber is called and the state is unchanged. In any other
    mode the buffer is not read: even an empty one is logged and dropped
    without an exception. *)
Theorem handle_notification_short_buffer (K : constants)
    (subscriber : callback -> list Z -> M unit) (data : bytes)
    (st : state) :
  (subscribable K (mode st) -> (length data <= 4)%nat ->
   TiltSensor.handle_notification K subscriber data st = (Raise IndexError, st)) /\
  (mode st = TILT_SENSOR_MODE_FULL K ->
   TILT_SENSOR_MODE_FULL K <> TILT_SENSOR_MODE_BASIC K ->
   (length data <= 5)%nat ->
   TiltSensor.handle_notification K subscriber data st = (Raise IndexError, st)) /\
  (~ subscribable K (mode st) ->
   TiltSensor.handle_notification K subscriber data st =
   (Ok tt, set_debug (debug st ++ [mode st]) st)).
Proof.
  unfold TiltSensor.handle_notification, mbind, M_bind, gets, lift, get_byte.
  split; [|split].
  - intros Hsub Hlen.
    assert (data !! 4%nat = None) as H4 by (apply lookup_ge_None; lia).
    rewrite H4.
    destruct (Z.eqb_spec (mode st) (TILT_SENSOR_MODE_BASIC K)); [done|].
    destruct (Z.eqb_spec (mode st) (TILT_SENSOR_MODE_FULL K)); [done|].
    destruct (Z.eqb_spec (mode st) (TILT_SENSOR_MODE_2AXIS K)); [done|].
    unfold subscribable in Hsub. tauto.
  - intros Hfull Hne Hlen.
    assert (data !! 5%nat = None) as H5 by (apply lookup_ge_None; lia).
    rewrite H5, Hfull.
    destruct (Z.eqb_spec (TILT_SENSOR_MODE_FULL K) (TILT_SENSOR_MODE_BASIC K));
      [done|].
    rewrite Z.eqb_refl. by destruct (data !! 4%nat).
  - intros Hnot. unfold subscribable in Hnot.
    destruct (Z.eqb_spec (mode st) (TILT_SENSOR_MODE_BASIC K)); [tauto|].
    destruct (Z.eqb_spec (mode st) (TILT_SENSOR_MODE_FULL K)); [tauto|].
    destruct (Z.eqb_spec (mode st) (TILT_SENSOR_MODE_2AXIS K)); [tauto|].
    reflexivity.
Qed.

Lemma handle_notification_short_buffer_witness :
  TiltSensor.handle_notification move_hub (fun _ _ => mret tt) [5; 0; 69; 58; 200]
    (set_mode 4 (set_subscribers {[1%positive]} (Peripheral.__init__ 58))) =
  (Raise IndexError,
   set_mode 4 (set_subscribers {[1%positive]} (Peripheral.__init__ 58))).
Proof.
  refine (proj1 (proj2 (handle_notification_short_buffer move_hub
            (fun _ _ => mret tt) [5; 0; 69; 58; 200]
            (set_mode 4 (set_subscribers {[1%positive]} (Peripheral.__init__ 58)))))
          _ _ _).
  - reflexivity.
  - simpl. lia.
  - simpl. lia.
Defined.

(** X8: [_byte2deg] on a byte value. The result lies in [-165, 90], it is
    negative exactly for the bytes above 90, and the byte is the result
    modulo 256, so that different bytes give different degrees. It agrees
    with the two's complement reading of the byte except on 91..127, which
    it reads as -165..-129. *)
Theorem byte2deg_bytes (v : Z) :
  is_byte v ->
  -165 <= TiltSensor._byte2deg v <= 90 /\
  (TiltSensor._byte2deg v < 0 <-> 90 < v) /\
  TiltSensor._byte2deg v mod 256 = v /\
  (forall w, is_byte w -> TiltSensor._byte2deg w = TiltSensor._byte2deg v -> w = v) /\
  (TiltSensor._byte2deg v = signed_byte v <-> ~ 91 <= v <= 127).
Proof.
  intros Hv. unfold is_byte in Hv.
  assert (forall u, is_byte u -> TiltSensor._byte2deg u mod 256 = u) as Hmod.
  { intros u Hu. unfold is_byte in Hu. unfold TiltSensor._byte2deg.
    destruct (Z.ltb_spec 90 u).
    - replace (u - 256) with (u + (-1) * 256) by lia.
      rewrite Z.mod_add by lia. apply Z.mod_small. lia.
    - apply Z.mod_small. lia. }
  split; [|split; [|split; [|split]]].
  - unfold TiltSensor._byte2deg. destruct (Z.ltb_spec 90 v); lia.
  - unfold TiltSensor._byte2deg. destruct (Z.ltb_spec 90 v); lia.
  - by apply Hmod.
  - intros w Hw Heq. rewrite <- (Hmod w Hw), <- (Hmod v Hv). by rewrite Heq.
  - unfold TiltSensor._byte2deg, signed_byte.
    destruct (Z.ltb_spec 90 v), (Z.leb_spec 128 v); lia.
Qed.

Lemma byte2deg_bytes_witness :
  -165 <= TiltSensor._byte2deg 200 <= 90 /\
  (TiltSensor._byte2deg 200 < 0 <-> 90 < 200) /\
  TiltSensor._byte2deg 200 mod 256 = 200 /\
  (forall w, is_byte w ->
     TiltSensor._byte2deg w = TiltSensor._byte2deg 200 -> w = 200) /\
  (TiltSensor._byte2deg 200 = signed_byte 200 <-> ~ 91 <= 200 <= 127).
Proof.
  apply (byte2deg_bytes 200). unfold is_byte. lia.
Defined.

(** ** TiltSensor: subscribing and unsubscribing *)

Lemma subscribable_test (K : constants) (m : Z) :
  (m =? TILT_SENSOR_MODE_BASIC K) || (m =? TILT_SENSOR_MODE_2AXIS K)
    || (m =? TILT_SENSOR_MODE_FULL K) = true <-> subscribable K m.
Proof.
  unfold subscribable.
  destruct (Z.eqb_spec m (TILT_SENSOR_MODE_BASIC K)),
    (Z.eqb_spec m (TILT_SENSOR_MODE_2AXIS K)),
    (Z.eqb_spec m (TILT_SENSOR_MODE_FULL K)); simpl; intuition congruence.
Qed.

Lemma subscribe_refused (K : constants) (cb : callback) (m : Z) (st : state) :
  ~ subscribable K m ->
  TiltSensor.subscribe K cb m st = (Raise ValueError, st).
Proof.
  intros Hn. unfold TiltSensor.subscribe.
  destruct (_ || _) eqn:Htest; [|reflexivity].
  by apply subscribable_test in Htest.
Qed.

Lemma subscribe_run (K : constants) (cb : callback) (m : Z) (st : state) :
  subscribable K m ->
  is_byte (PACKET_VER K) -> is_byte (MSG_SENSOR_SUBSCRIBE K) ->
  is_byte (port st) -> is_byte m ->
  TiltSensor.subscribe K cb m st =
    (Ok tt,
     set_subscribers ({[cb]} ∪ _subscribers st)
       (set_wire (wire st ++ [mode_packet K (port st) m]) (set_mode m st))).
Proof.
  intros Hs Hv Ht Hp Hm. unfold TiltSensor.subscribe.
  apply subscribable_test in Hs. rewrite Hs. simpl.
  unfold mbind, M_bind. by rewrite switch_mode_run.
Qed.

Lemma unsubscribe_run (K : constants) (cb : callback) (st : state) :
  TiltSensor.unsubscribe K cb st =
  if decide (cb ∈ _subscribers st) then
    if decide (_subscribers st ∖ {[cb]} = ∅)
    then TiltSensor._switch_mode K (TILT_SENSOR_MODE_OFF K)
           (set_subscribers (_subscribers st ∖ {[cb]}) st)
    else (Ok tt, set_subscribers (_subscribers st ∖ {[cb]}) st)
  else (Raise KeyError, st).
Proof.
  unfold TiltSensor.unsubscribe, mbind, M_bind, gets, modify, raise.
  destruct (decide (cb ∈ _subscribers st)); [|reflexivity].
  cbn beta iota. change (_subscribers (set_subscribers ?s _)) with s.
  by destruct (decide (_subscribers st ∖ {[cb]} = ∅)).
Qed.

(** X9: [subscribe] with a mode other than BASIC, 2AXIS and FULL raises
    [ValueError] and changes nothing. With one of the three it stores the
    mode, sends the packet of that mode and adds the callback; a callback
    that was already subscribed stays once in the set, yet the mode is
    set and the packet sent again. *)
Theorem subscribe_spec (K : constants) (cb : callback) (m : Z) (st : state) :
  is_byte (PACKET_VER K) -> is_byte (MSG_SENSOR_SUBSCRIBE K) ->
  is_byte (port st) -> is_byte m ->
  (~ subscribable K m ->
   TiltSensor.subscribe K cb m st = (Raise ValueError, st)) /\
  (subscribable K m ->
   exists st',
     TiltSensor.subscribe K cb m st = (Ok tt, st') /\
     mode st' = m /\
     wire st' = wire st ++ [mode_packet K (port st) m] /\
     (forall c, c ∈ _subscribers st' <-> c = cb \/ c ∈ _subscribers st) /\
     (cb ∈ _subscribers st -> _subscribers st' = _subscribers st) /\
     size (_subscribers st') =
       (if decide (cb ∈ _subscribers st) then size (_subscribers st)
        else S (size (_subscribers st)))).
Proof.
  intros Hv Ht Hp Hm. split; [apply subscribe_refused|].
  intros Hs. eexists. split; [by apply subscribe_run|]. simpl.
  split; [done|]. split; [done|].
  assert (cb ∈ _subscribers st -> {[cb]} ∪ _subscribers st = _subscribers st)
    as Hsame by (intros Hin; by apply subseteq_union_1_L, singleton_subseteq_l).
  split.
  { intros c. by rewrite elem_of_union, elem_of_singleton. }
  split; [exact Hsame|].
  case_decide as Hin.
  - by rewrite Hsame.
  - rewrite size_union by (by apply disjoint_singleton_l).
    by rewrite size_singleton.
Qed.

Lemma subscribe_spec_witness :
  (~ subscribable move_hub 0 ->
   TiltSensor.subscribe move_hub 1%positive 0 (TiltSensor.__init__ move_hub 58) =
   (Raise ValueError, TiltSensor.__init__ move_hub 58)) /\
  (subscribable move_hub 0 ->
   exists st',
     TiltSensor.subscribe move_hub 1%positive 0 (TiltSensor.__init__ move_hub 58) =
       (Ok tt, st') /\
     mode st' = 0 /\
     wire st' = wire (TiltSensor.__init__ move_hub 58) ++
                [mode_packet move_hub (port (TiltSensor.__init__ move_hub 58)) 0] /\
     (forall c, c ∈ _subscribers st' <->
        c = 1%positive \/ c ∈ _subscribers (TiltSensor.__init__ move_hub 58)) /\
     (1%positive ∈ _subscribers (TiltSensor.__init__ move_hub 58) ->
      _subscribers st' = _subscribers (TiltSensor.__init__ move_hub 58)) /\
     size (_subscribers st') =
       (if decide (1%positive ∈ _subscribers (TiltSensor.__init__ move_hub 58))
        then size (_subscribers (TiltSensor.__init__ move_hub 58))
        else S (size (_subscribers (TiltSensor.__init__ move_hub 58))))).
Proof.
  apply (subscribe_spec move_hub 1%positive 0 (TiltSensor.__init__ move_hub 58));
    unfold is_byte; simpl; lia.
Defined.

(** X10: subscribing a new callback and unsubscribing it again. The
    subscriber set is back to what it was. If it was empty, the sensor
    ends in mode OFF after two packets, the one of the mode and the one of
    OFF. If other subscribers remain, only the packet of the mode is sent
    and the sensor stays in the mode just subscribed: the mode the others
    had asked for is not restored. *)
Theorem subscribe_then_unsubscribe (K : constants) (cb : callback) (m : Z)
    (st : state) :
  tilt_bytes K (port st) -> subscribable K m -> cb ∉ _subscribers st ->
  exists st',
    (TiltSensor.subscribe K cb m ;; TiltSensor.unsubscribe K cb) st = (Ok tt, st') /\
    _subscribers st' = _subscribers st /\
    (_subscribers st = ∅ ->
     mode st' = TILT_SENSOR_MODE_OFF K /\
     wire st' = wire st ++ [mode_packet K (port st) m;
                            mode_packet K (port st) (TILT_SENSOR_MODE_OFF K)]) /\
    (_subscribers st <> ∅ ->
     mode st' = m /\ wire st' = wire st ++ [mode_packet K (port st) m]).
Proof.
  intros (Hv & Ht & Hp & Hoff & Hb & Ha & Hf) Hs Hnew.
  assert (is_byte m) as Hm by (destruct Hs as [->|[->| ->]]; assumption).
  assert (({[cb]} ∪ _subscribers st) ∖ {[cb]} = _subscribers st) as Hback.
  { rewrite difference_union_distr_l_L, difference_diag_L, union_empty_l_L.
    by apply difference_disjoint_L, disjoint_singleton_r. }
  unfold mbind, M_bind. rewrite subscribe_run by done.
  rewrite unsubscribe_run.
  change (_subscribers (set_subscribers ?s _)) with s.
  rewrite decide_True by (apply elem_of_union_l; by apply elem_of_singleton).
  rewrite Hback.
  destruct (decide (_subscribers st = ∅)) as [Hempty|Hsome].
  - rewrite switch_mode_run by done. eexists. split; [reflexivity|]. simpl.
    split; [done|]. split; [|done]. intros _. split; [done|].
    by rewrite <- app_assoc.
  - eexists. split; [reflexivity|]. simpl. split; [done|]. by split.
Qed.

Lemma subscribe_then_unsubscribe_witness :
  exists st',
    (TiltSensor.subscribe move_hub 7%positive 4 ;;
     TiltSensor.unsubscribe move_hub 7%positive) (TiltSensor.__init__ move_hub 58) =
      (Ok tt, st') /\
    _subscribers st' = _subscribers (TiltSensor.__init__ move_hub 58) /\
    (_subscribers (TiltSensor.__init__ move_hub 58) = ∅ ->
     mode st' = 0 /\
     wire st' = wire (TiltSensor.__init__ move_hub 58) ++
       [mode_packet move_hub (port (TiltSensor.__init__ move_hub 58)) 4;
        mode_packet move_hub (port (TiltSensor.__init__ move_hub 58)) 0]) /\
    (_subscribers (TiltSensor.__init__ move_hub 58) <> ∅ ->
     mode st' = 4 /\
     wire st' = wire (TiltSensor.__init__ move_hub 58) ++
       [mode_packet move_hub (port (TiltSensor.__init__ move_hub 58)) 4]).
Proof.
  apply (subscribe_then_unsubscribe move_hub 7%positive 4
           (TiltSensor.__init__ move_hub 58)).
  - unfold tilt_bytes, is_byte. simpl. lia.
  - right. right. reflexivity.
  - simpl. set_solver.
Defined.


(** ** LED.set_color *)

(** X12: [set_color] with a colour that is not in [COLORS] raises
    [ValueError] before anything is built or written. With a colour of the
    table that is a byte value (and byte values in the header) it writes
    the eight bytes [8, version, MSG_SET_PORT_VAL, port, 0x11, 0x51, 0x00,
    colour]. *)
Theorem set_color_spec (K : constants) (COLORS : gset Z) (color : Z)
    (st : state) :
  (color ∉ COLORS -> LED.set_color K COLORS color st = (Raise ValueError, st)) /\
  (color ∈ COLORS -> is_byte color -> is_byte (PACKET_VER K) ->
   is_byte (MSG_SET_PORT_VAL K) -> is_byte (port st) ->
   LED.set_color K COLORS color st =
   (Ok tt,
    set_wire (wire st ++
      [(MOVE_HUB_HARDWARE_HANDLE K,
        [8; PACKET_VER K; MSG_SET_PORT_VAL K; port st; 17; 81; 0; color])]) st)).
Proof.
  unfold LED.set_color, Peripheral._set_port_val, mbind, M_bind, lift, raise.
  split.
  - intros Hnot. by rewrite decide_False.
  - intros Hin Hc Hv Ht Hp. rewrite decide_True by done.
    rewrite (int2byte_ok color Hc), write_to_hub_run.
    rewrite decide_True; [reflexivity|]. repeat split; try apply Hv;
      try apply Ht; try apply Hp.
Qed.

Lemma set_color_spec_witness :
  LED.set_color move_hub {[0; 3; 9]} 9 (Peripheral.__init__ 50) =
  (Ok tt,
   set_wire (wire (Peripheral.__init__ 50) ++
     [(14, [8; 1; 129; port (Peripheral.__init__ 50); 17; 81; 0; 9])])
     (Peripheral.__init__ 50)).
Proof.
  refine (proj2 (set_color_spec move_hub {[0; 3; 9]} 9
                   (Peripheral.__init__ 50)) _ _ _ _ _).
  - apply elem_of_union_r. by apply elem_of_singleton.
  - unfold is_byte. lia.
  - unfold is_byte. simpl. lia.
  - unfold is_byte. simpl. lia.
  - unfold is_byte. simpl. lia.
Defined.

(** ** EncodedMotor._speed_abs: the bytes *)

(** X13: the bytes of the speeds [_speed_abs] accepts. A speed whose
    percentage rounds to a number that is not negative is sent as that
    number, 0 to 100; one whose percentage rounds to a negative number is
    sent as 155 to 254, full reverse being 155 and the slowest reverse 254.
    The bytes 101 to 154 and 255 never leave [_speed_abs]. *)
Theorem speed_abs_bytes (py : python) (relative : float) :
  valid_speed relative ->
  (exists absolute v,
     round py (fmul relative (of_int 100)) = Ok absolute /\
     EncodedMotor._speed_abs py relative = Ok v /\
     ((0 <= absolute /\ v = absolute /\ 0 <= v <= 100) \/
      (absolute < 0 /\ v = absolute + 255 /\ 155 <= v <= 254))) /\
  EncodedMotor._speed_abs py (of_int 1) = Ok 100 /\
  EncodedMotor._speed_abs py (of_int 0) = Ok 0 /\
  EncodedMotor._speed_abs py (of_int (-1)) = Ok 155.
Proof.
  intros Hv. split.
  - destruct (speed_abs_run py relative Hv) as (a & Hr & Ha & Hs).
    exists a. eexists. split; [exact Hr|]. split; [exact Hs|].
    destruct (Z.ltb_spec a 0); [right | left]; lia.
  - by destruct py; vm_compute.
Qed.

Lemma speed_abs_bytes_witness :
  (exists absolute v,
     round Py3 (fmul (decimal (-5) 1000) (of_int 100)) = Ok absolute /\
     EncodedMotor._speed_abs Py3 (decimal (-5) 1000) = Ok v /\
     ((0 <= absolute /\ v = absolute /\ 0 <= v <= 100) \/
      (absolute < 0 /\ v = absolute + 255 /\ 155 <= v <= 254))) /\
  EncodedMotor._speed_abs Py3 (of_int 1) = Ok 100 /\
  EncodedMotor._speed_abs Py3 (of_int 0) = Ok 0 /\
  EncodedMotor._speed_abs Py3 (of_int (-1)) = Ok 155.
Proof.
  apply (speed_abs_bytes Py3 (decimal (-5) 1000)). split; reflexivity.
Defined.

(** ** TiltSensor: one mode for all subscribers *)



(** X16: [unsubscribe] is not idempotent. Made twice in a row for the same
    callback, on a sensor whose header values are bytes, the second call
    always raises [KeyError]; it sends nothing and leaves the state the
    first call produced. *)
Theorem unsubscribe_twice (K : constants) (cb : callback) (st : state) :
  tilt_bytes K (port st) ->
  let st1 := snd (TiltSensor.unsubscribe K cb st) in
  (cb ∉ _subscribers st1) /\
  TiltSensor.unsubscribe K cb st1 = (Raise KeyError, st1).
Proof.
  intros (Hv & Ht & Hp & Hoff & _) st1.
  assert (cb ∉ _subscribers st1) as Hgone.
  { subst st1. rewrite unsubscribe_run.
    destruct (decide (cb ∈ _subscribers st)) as [Hin|Hin]; [|done].
    destruct (decide (_subscribers st ∖ {[cb]} = ∅)) as [Hempty|Hsome].
    - rewrite switch_mode_run by done. simpl. rewrite Hempty.
      apply not_elem_of_empty.
    - simpl. intros Hcb. apply elem_of_difference in Hcb as [_ Hcb].
      apply Hcb. by apply elem_of_singleton. }
  split; [done|]. rewrite unsubscribe_run. by rewrite decide_False.
Qed.

Lemma unsubscribe_twice_witness :
  let st := set_mode 2 (set_subscribers {[1%positive]} (Peripheral.__init__ 58)) in
  let st1 := snd (TiltSensor.unsubscribe move_hub 1%positive st) in
  (1%positive ∉ _subscribers st1) /\
  TiltSensor.unsubscribe move_hub 1%positive st1 = (Raise KeyError, st1).
Proof.
  intros st.
  apply (unsubscribe_twice move_hub 1%positive st).
  unfold tilt_bytes, is_byte. simpl. lia.
Defined.
